(** * Yazaki chatbot: session lifecycle, streaming, augmentation and summary e-mail

    A shallow embedding of the JavaScript sources
      - backend/controllers/sessionController.js
      - backend/routes (the express-validator chains in front of the controller)
      - backend/services/emailService.js
      - frontend_new/js/chatbot-api.js and chatbot-ui.js
      - frontend/static/chat.js (the consumer of the event stream)
      - backend/scripts/migrate_userinfo_location.js
    together with the parts of the system that are described but not present
    as code (models/Session.js, the streaming producer, the response
    coordinator, the inactivity sweep).

    Conventions.
      - Strings are byte strings ([string]); white space is ASCII white space.
      - [new Date()] and [uuidv4()] are inputs of the function that calls
        them: every handler takes the clock reading [now] (milliseconds, [Z])
        and, where needed, the generated identifier.
      - A Mongoose collection is a finite map from [sessionId] to the stored
        document; every driver call succeeds (the [catch] branches that turn
        a driver exception into a 500 answer are outside the model).
      - An Express handler is a function from the store to an answer and the
        next store.
      - The clock readings that one call of a summary builder makes are
        taken at the same instant.
      - What belongs to the runtime or to a library ([parseInt], the local
        time of a date, the validators of validator.js, [fetch]) is a
        parameter of the definitions that use it. *)

From Stdlib Require Import ZArith String Ascii List Lia Permutation DecimalString.
From stdpp Require Import base gmap strings list sorting.

#[local] Set Warnings "-register-all".

(** ** Text helpers shared by the JavaScript sources *)

Module Text.

(** The double quote character, used where the sources spell it inside a
    template. *)
Definition dq : string :=
  String (Ascii false true false false false true false false) EmptyString.

(** The ASCII part of the class [\s]: TAB, LF, VT, FF, CR and SPACE. *)
Definition is_space (c : ascii) : bool :=
  let n := nat_of_ascii c in
  (n =? 9) || (n =? 10) || (n =? 11) || (n =? 12) || (n =? 13) || (n =? 32).

Fixpoint ltrim (s : string) : string :=
  match s with
  | EmptyString => EmptyString
  | String c rest => if is_space c then ltrim rest else s
  end.

Definition is_empty (s : string) : bool :=
  match s with EmptyString => true | String _ _ => false end.

Fixpoint rtrim (s : string) : string :=
  match s with
  | EmptyString => EmptyString
  | String c rest =>
      let r := rtrim rest in
      if is_space c && is_empty r then EmptyString else String c r
  end.

(** [String.prototype.trim]. *)
Definition trim (s : string) : string := rtrim (ltrim s).

(** JavaScript truthiness of a value that is either [undefined] or a
    string: only a non-empty string is truthy. *)
Definition truthy (v : option string) : bool :=
  match v with
  | Some s => negb (is_empty s)
  | None => false
  end.

(** [v || d] on such a value. *)
Definition or_else (v : option string) (d : string) : string :=
  match v with
  | Some s => if is_empty s then d else s
  | None => d
  end.

(** [text.trim().length === 0]. *)
Definition blank (s : string) : bool := is_empty (trim s).

(** [s.substring(0, n)]. *)
Definition prefix (n : nat) (s : string) : string := String.substring 0 n s.

Definition nl : string := String (ascii_of_nat 10) EmptyString.

(** The strings of a list put one after the other, as repeated [+=] does. *)
Definition concatAll (parts : list string) : string :=
  fold_right String.append EmptyString parts.

(** A computation that may [throw new Error(message)]. *)
Inductive Exn (A : Type) :=
| Return (a : A)
| Throw (message : string).
Arguments Return {A} a.
Arguments Throw {A} message.

#[global] Instance Exn_ret : MRet Exn := fun A a => Return a.

#[global] Instance Exn_bind : MBind Exn := fun A B k m =>
  match m with
  | Return a => k a
  | Throw e => Throw e
  end.

End Text.

(** ** The session document (models/Session.js) *)

Module SessionModel.

Definition Time := Z.

(** Free-form JSON carried as message metadata. *)
Inductive Json :=
| JNull
| JBool (b : bool)
| JNum (n : Z)
| JStr (s : string)
| JArr (items : list Json)
| JObj (fields : list (string * Json)).

(** A metadata object, as the list of its own enumerable properties. *)
Definition Metadata := list (string * Json).

Inductive Sender := user | bot.

Record Message := mkMessage {
  sender : Sender;
  text : string;
  timestamp : Time;
  metadata : option Metadata
}.

Inductive Status := active | ended | expired.

Definition is_active (s : Status) : bool :=
  match s with active => true | _ => false end.

Record Location := mkLocation {
  city : option string;
  country : option string
}.

Record UserInfo := mkUserInfo {
  fullName : string;
  email : string;
  companyName : string;
  projectName : string;
  supplierType : string;
  location : Location
}.

Record Session := mkSession {
  sessionId : string;
  userInfo : UserInfo;
  messages : list Message;
  status : Status;
  createdAt : Time;
  updatedAt : Time;
  lastActivity : Time;
  endedAt : option Time
}.

(** The collection of session documents, keyed by [sessionId].  The
    member [updatedAt], which the summary e-mail reads, is the time of the
    last write to the document. *)
Abbreviation Store := (gmap string Session).

(** [Session.findOne({ sessionId })]: the document under that id, if its
    own [sessionId] member matches the filter. *)
Definition findOne (sid : string) (st : Store) : option Session :=
  match st !! sid with
  | Some s => if bool_decide (sessionId s = sid) then Some s else None
  | None => None
  end.

(** [Session.findOne({ sessionId, status: 'active' })]. *)
Definition findOneActive (sid : string) (st : Store) : option Session :=
  match findOne sid st with
  | Some s => if is_active (status s) then Some s else None
  | None => None
  end.

(** [doc.save()]: the document replaces the stored one with its id. *)
Definition save (s : Session) (st : Store) : Store := <[sessionId s := s]> st.

(** Modelled from the spec: the schema of models/Session.js is not among
    the sources.  A new document has [createdAt = lastActivity = now] and
    no [endedAt]; [updatedAt] is the time of the last save. *)
Definition newSession (now : Time) (sid : string) (ui : UserInfo)
    (msgs : list Message) (stat : Status) : Session :=
  {| sessionId := sid; userInfo := ui; messages := msgs; status := stat;
     createdAt := now; updatedAt := now; lastActivity := now;
     endedAt := None |}.

(** Modelled from the spec: the method [addMessage] of models/Session.js is
    not among the sources.  It "atomically (a) appends the message,
    (b) sets lastActivity=now"; the message carries the time of the
    append. *)
Definition addMessage (now : Time) (who : Sender) (txt : string)
    (md : option Metadata) (s : Session) : Session :=
  {| sessionId := sessionId s; userInfo := userInfo s;
     messages := messages s ++ [mkMessage who txt now md];
     status := status s;
     createdAt := createdAt s; updatedAt := now; lastActivity := now;
     endedAt := endedAt s |}.

(** Modelled from the spec: the method [endSession] of models/Session.js is
    not among the sources.  It "transitions active -> ended, sets
    endedAt=now". *)
Definition endSessionDoc (now : Time) (s : Session) : Session :=
  {| sessionId := sessionId s; userInfo := userInfo s;
     messages := messages s; status := ended;
     createdAt := createdAt s; updatedAt := now;
     lastActivity := lastActivity s; endedAt := Some now |}.

(** [Session.findOneAndUpdate(filter, { lastActivity: now }, { new: true })]
    applied to the matched document. *)
Definition setLastActivity (now : Time) (s : Session) : Session :=
  {| sessionId := sessionId s; userInfo := userInfo s;
     messages := messages s; status := status s;
     createdAt := createdAt s; updatedAt := now; lastActivity := now;
     endedAt := endedAt s |}.

(** The virtual properties of the schema that the controller echoes in its
    answers; their definitions are not among the sources, so they are
    taken as given. *)
Record Virtuals := mkVirtuals {
  messageCount : Session -> nat;
  duration : Session -> Z
}.

End SessionModel.

(** ** backend/services/emailService.js *)

Module EmailService.
Import Text SessionModel.

(** The object passed to [transporter.sendMail]. *)
Record MailOptions := mkMail {
  mail_from : string;
  mail_to : string;
  mail_subject : string;
  mail_text : string;
  mail_html : string
}.

(** What the process reads from outside: the variables of [process.env]
    and the behaviour of the SMTP transport, which either accepts a
    message and returns its id or rejects with an error. *)
Record Env := mkEnv {
  MAIL_USER : option string;
  MAIL_PASS : option string;
  MAIL_FROM : option string;
  ADMIN_EMAIL : option string;
  sendMail : MailOptions -> Exn string
}.

(** The local-time getters of [Date] and [JSON.stringify(_, null, 2)],
    which belong to the JavaScript runtime. *)
Record Runtime := mkRuntime {
  getFullYear : Time -> Z;
  getMonth : Time -> Z;
  getDate : Time -> Z;
  getHours : Time -> Z;
  getMinutes : Time -> Z;
  JSON_stringify : Metadata -> string
}.

(** [createTransporter]: the transport exists only with credentials. *)
Definition createTransporter (env : Env) : Exn (MailOptions -> Exn string) :=
  if negb (truthy (MAIL_USER env)) || negb (truthy (MAIL_PASS env))
  then Throw "Email configuration is missing. Please check MAIL_USER and MAIL_PASS in .env file."
  else Return (sendMail env).

Definition fetchSessionData (sid : string) (st : Store) : Exn Session :=
  match findOne sid st with
  | None => Throw ("Session not found: " +:+ sid)
  | Some session => Return session
  end.

(** [`${n}`] for an integer. *)
Definition showZ (z : Z) : string := NilZero.string_of_int (Z.to_int z).

Definition plural (n : Z) : string := if (n =? 1)%Z then "" else "s".

Definition calculateDuration (startTime endTime : Time) : string :=
  let durationMs := (endTime - startTime)%Z in
  let durationMinutes := (durationMs / 60000)%Z in
  if (durationMinutes <? 60)%Z
  then showZ durationMinutes +:+ " minute" +:+ plural durationMinutes
  else
    let hours := (durationMinutes / 60)%Z in
    let minutes := Z.rem durationMinutes 60 in
    if (minutes =? 0)%Z
    then showZ hours +:+ " hour" +:+ plural hours
    else showZ hours +:+ " hour" +:+ plural hours +:+ " "
         +:+ showZ minutes +:+ " minute" +:+ plural minutes.

Fixpoint repeatString (s : string) (n : nat) : string :=
  match n with
  | O => ""
  | S k => s +:+ repeatString s k
  end.

(** [s.padStart(2, '0')]. *)
Definition padStart2 (s : string) : string :=
  repeatString "0" (2 - String.length s) +:+ s.

Definition upper (c : ascii) : ascii :=
  let n := nat_of_ascii c in
  if (97 <=? n) && (n <=? 122) then ascii_of_nat (n - 32) else c.

Fixpoint toUpperCase (s : string) : string :=
  match s with
  | EmptyString => EmptyString
  | String c rest => String (upper c) (toUpperCase rest)
  end.

Definition statusName (s : Status) : string :=
  match s with
  | active => "active"
  | ended => "ended"
  | expired => "expired"
  end.

Definition is_user (s : Sender) : bool :=
  match s with user => true | bot => false end.

(** ['&' -> '&amp;'] and so on: the [map] object of [escapeHtml]. *)
Definition entity (c : ascii) : option string :=
  let n := nat_of_ascii c in
  if n =? 38 then Some "&amp;"
  else if n =? 60 then Some "&lt;"
  else if n =? 62 then Some "&gt;"
  else if n =? 34 then Some "&quot;"
  else if n =? 39 then Some "&#039;"
  else None.

(** [text.replace(re, (m) => map[m])], where the global pattern [re]
    matches any one of the five characters that [map] lists. *)
Fixpoint escapeHtml (s : string) : string :=
  match s with
  | EmptyString => EmptyString
  | String c rest =>
      match entity c with
      | Some e => e +:+ escapeHtml rest
      | None => String c (escapeHtml rest)
      end
  end.

(** [msg.metadata && Object.keys(msg.metadata).length > 0]. *)
Definition shownMetadata (msg : Message) : option Metadata :=
  match metadata msg with
  | Some (f :: fs) => Some (f :: fs)
  | _ => None
  end.

Section Summaries.
Context (R : Runtime).

Definition formatTimestamp (t : Time) : string :=
  let year := getFullYear R t in
  let month := padStart2 (showZ (getMonth R t + 1)) in
  let day := padStart2 (showZ (getDate R t)) in
  let hours := padStart2 (showZ (getHours R t)) in
  let minutes := padStart2 (showZ (getMinutes R t)) in
  showZ year +:+ "-" +:+ month +:+ "-" +:+ day +:+ " " +:+ hours
  +:+ ":" +:+ minutes.

(** [status === 'ended' || status === 'expired' ? updatedAt : new Date()] *)
Definition endTimeOf (now : Time) (session : Session) : Time :=
  match status session with
  | ended | expired => updatedAt session
  | active => now
  end.

Definition plainMessage (msg : Message) : string :=
  let speaker := if is_user (sender msg) then "User" else "Bot" in
  let time := formatTimestamp (timestamp msg) in
  "[" +:+ time +:+ "] " +:+ speaker +:+ ":" +:+ nl
  +:+ text msg +:+ nl +:+ nl
  +:+ match shownMetadata msg with
      | Some md =>
          "   ℹ️ Metadata: " +:+ JSON_stringify R md +:+ nl +:+ nl
      | None => ""
      end.

Definition rule1 : string := "═══════════════════════════════════════".
Definition rule2 : string := "───────────────────────────────────────".

Definition buildPlainTextSummary (now : Time) (session : Session)
    : string :=
  let endTime := endTimeOf now session in
  let duration := calculateDuration (createdAt session) endTime in
  "🧾 CHAT SUMMARY" +:+ nl
  +:+ rule1 +:+ nl +:+ nl
  +:+ "📋 Session Information:" +:+ nl
  +:+ "Session ID: " +:+ sessionId session +:+ nl
  +:+ "Start: " +:+ formatTimestamp (createdAt session) +:+ nl
  +:+ "End: " +:+ formatTimestamp endTime +:+ nl
  +:+ "Duration: " +:+ duration +:+ nl
  +:+ "Status: " +:+ toUpperCase (statusName (status session)) +:+ nl
  +:+ "Total Messages: "
  +:+ showZ (Z.of_nat (length (messages session))) +:+ nl +:+ nl
  +:+ "👤 User Information:" +:+ nl
  +:+ "Name: " +:+ fullName (userInfo session) +:+ nl
  +:+ "Email: " +:+ email (userInfo session) +:+ nl
  +:+ "Company: " +:+ companyName (userInfo session) +:+ nl
  +:+ "Supplier Type: " +:+ supplierType (userInfo session) +:+ nl +:+ nl
  +:+ "💬 Conversation Transcript:" +:+ nl
  +:+ rule2 +:+ nl +:+ nl
  +:+ match messages session with
      | [] => "(No messages in this session)" +:+ nl +:+ nl
      | msgs => concatAll (map plainMessage msgs)
      end
  +:+ rule1 +:+ nl
  +:+ "Generated on: " +:+ formatTimestamp now +:+ nl.

(** The lines of the first template of [buildHtmlSummary], as a function
    of the values it interpolates. *)
Definition headLines (sessionId_ createdStr endStr duration status_
    statusUpper count fullName_ email_ companyName_ supplierType_ : string)
    : list string :=
  [
    "";
    "<!DOCTYPE html>";
    "<html lang=" +:+ dq +:+ "en" +:+ dq +:+ ">";
    "<head>";
    "  <meta charset=" +:+ dq +:+ "UTF-8" +:+ dq +:+ ">";
    "  <meta name=" +:+ dq +:+ "viewport" +:+ dq +:+ " content=" +:+ dq +:+
      "width=device-width, initial-scale=1.0" +:+ dq +:+ ">";
    "  <title>Chat Summary - " +:+ sessionId_ +:+ "</title>";
    "  <style>";
    "    /* Compact email styles: smaller paddings, tighter spacing */";
    "    body {";
    "      font-family: -apple-system, BlinkMacSystemFont, 'Segoe UI', Roboto, 'Helvetica Neue', Arial, sans-serif;";
    "      line-height: 1.4;";
    "      color: #333;";
    "      max-width: 680px;";
    "      margin: 0 auto;";
    "      padding: 12px;";
    "      background-color: #f7f7f7;";
    "      font-size: 13px;";
    "    }";
    "    .container {";
    "      background-color: #ffffff;";
    "      border-radius: 6px;";
    "      box-shadow: 0 1px 2px rgba(0,0,0,0.06);";
    "      padding: 12px;";
    "    }";
    "    .header {";
    "      background: linear-gradient(135deg, #667eea 0%, #764ba2 100%);";
    "      color: white;";
    "      padding: 10px;";
    "      border-radius: 6px 6px 0 0;";
    "      margin: -12px -12px 12px -12px;";
    "    }";
    "    .header h1 {";
    "      margin: 0;";
    "      font-size: 16px;";
    "      font-weight: 600;";
    "    }";
    "    .section {";
    "      margin-bottom: 12px;";
    "      padding: 10px;";
    "      background-color: #fafafa;";
    "      border-radius: 4px;";
    "      border-left: 4px solid #667eea;";
    "    }";
    "    .section-title {";
    "      font-size: 14px;";
    "      font-weight: 600;";
    "      margin-bottom: 8px;";
    "      color: #667eea;";
    "      display: flex;";
    "      align-items: center;";
    "      gap: 6px;";
    "    }";
    "    .info-grid {";
    "      display: grid;";
    "      grid-template-columns: 120px 1fr;";
    "      gap: 6px;";
    "      align-items: center;";
    "    }";
    "    .info-label {";
    "      font-weight: 600;";
    "      color: #666;";
    "      font-size: 13px;";
    "    }";
    "    .info-value {";
    "      color: #333;";
    "      font-size: 13px;";
    "    }";
    "    .message {";
    "      margin-bottom: 10px;";
    "      padding: 8px;";
    "      border-radius: 6px;";
    "      background-color: #ffffff;";
    "      border: 1px solid #e9e9e9;";
    "      font-size: 13px;";
    "    }";
    "    .message-user { border-left: 4px solid #4CAF50; }";
    "    .message-bot { border-left: 4px solid #2196F3; }";
    "    .message-header {";
    "      display: flex;";
    "      justify-content: space-between;";
    "      margin-bottom: 6px;";
    "      font-size: 11px;";
    "      color: #666;";
    "    }";
    "    .message-sender { font-weight: 600; font-size: 13px; }";
    "    .message-sender-user { color: #4CAF50; }";
    "    .message-sender-bot { color: #2196F3; }";
    "    .message-text { color: #333; white-space: pre-wrap; word-wrap: break-word; font-size: 13px; }";
    "    .metadata {";
    "      margin-top: 8px;";
    "      padding: 8px;";
    "      background-color: #f3f3f3;";
    "      border-radius: 4px;";
    "      font-size: 11px;";
    "      color: #666;";
    "      font-family: monospace;";
    "      max-height: 120px;";
    "      overflow: auto;";
    "    }";
    "    .footer {";
    "      margin-top: 12px;";
    "      padding-top: 12px;";
    "      border-top: 1px solid #eaeaea;";
    "      text-align: center;";
    "      color: #666;";
    "      font-size: 12px;";
    "    }";
    "    .badge { display: inline-block; padding: 3px 8px; border-radius: 10px; font-size: 11px; font-weight: 600; text-transform: uppercase; }";
    "    .badge-active { background-color: #4CAF50; color: white; }";
    "    .badge-ended { background-color: #9E9E9E; color: white; }";
    "    .badge-expired { background-color: #F44336; color: white; }";
    "  </style>";
    "</head>";
    "<body>";
    "  <div class=" +:+ dq +:+ "container" +:+ dq +:+ ">";
    "    <div class=" +:+ dq +:+ "header" +:+ dq +:+ ">";
    "      <h1>🧾 Chat Session Summary</h1>";
    "    </div>";
    "    ";
    "    <div class=" +:+ dq +:+ "section" +:+ dq +:+ ">";
    "      <div class=" +:+ dq +:+ "section-title" +:+ dq +:+
      ">📋 Session Information</div>";
    "      <div class=" +:+ dq +:+ "info-grid" +:+ dq +:+ ">";
    "        <div class=" +:+ dq +:+ "info-label" +:+ dq +:+
      ">Session ID:</div>";
    "        <div class=" +:+ dq +:+ "info-value" +:+ dq +:+ "><code>" +:+
      sessionId_ +:+ "</code></div>";
    "        ";
    "        <div class=" +:+ dq +:+ "info-label" +:+ dq +:+
      ">Start Time:</div>";
    "        <div class=" +:+ dq +:+ "info-value" +:+ dq +:+ ">" +:+
      createdStr +:+ "</div>";
    "        ";
    "        <div class=" +:+ dq +:+ "info-label" +:+ dq +:+
      ">End Time:</div>";
    "        <div class=" +:+ dq +:+ "info-value" +:+ dq +:+ ">" +:+
      endStr +:+ "</div>";
    "        ";
    "        <div class=" +:+ dq +:+ "info-label" +:+ dq +:+
      ">Duration:</div>";
    "        <div class=" +:+ dq +:+ "info-value" +:+ dq +:+ ">" +:+
      duration +:+ "</div>";
    "        ";
    "        <div class=" +:+ dq +:+ "info-label" +:+ dq +:+ ">Status:</div>";
    "        <div class=" +:+ dq +:+ "info-value" +:+ dq +:+ ">";
    "          <span class=" +:+ dq +:+ "badge badge-" +:+
      status_ +:+ dq +:+ ">" +:+
      statusUpper +:+ "</span>";
    "        </div>";
    "        ";
    "        <div class=" +:+ dq +:+ "info-label" +:+ dq +:+
      ">Total Messages:</div>";
    "        <div class=" +:+ dq +:+ "info-value" +:+ dq +:+ ">" +:+
      count +:+ "</div>";
    "      </div>";
    "    </div>";
    "    ";
    "    <div class=" +:+ dq +:+ "section" +:+ dq +:+ ">";
    "      <div class=" +:+ dq +:+ "section-title" +:+ dq +:+
      ">👤 User Information</div>";
    "      <div class=" +:+ dq +:+ "info-grid" +:+ dq +:+ ">";
    "        <div class=" +:+ dq +:+ "info-label" +:+ dq +:+ ">Name:</div>";
    "        <div class=" +:+ dq +:+ "info-value" +:+ dq +:+ ">" +:+
      fullName_ +:+ "</div>";
    "        ";
    "        <div class=" +:+ dq +:+ "info-label" +:+ dq +:+ ">Email:</div>";
    "        <div class=" +:+ dq +:+ "info-value" +:+ dq +:+ "><a href=" +:+
      dq +:+ "mailto:" +:+ email_ +:+ dq +:+ ">" +:+
      email_ +:+ "</a></div>";
    "        ";
    "        <div class=" +:+ dq +:+ "info-label" +:+ dq +:+
      ">Company:</div>";
    "        <div class=" +:+ dq +:+ "info-value" +:+ dq +:+ ">" +:+
      companyName_ +:+ "</div>";
    "        ";
    "        <div class=" +:+ dq +:+ "info-label" +:+ dq +:+
      ">Supplier Type:</div>";
    "        <div class=" +:+ dq +:+ "info-value" +:+ dq +:+ ">" +:+
      supplierType_ +:+ "</div>";
    "      </div>";
    "    </div>";
    "    ";
    "    <div class=" +:+ dq +:+ "section" +:+ dq +:+ ">";
    "      <div class=" +:+ dq +:+ "section-title" +:+ dq +:+
      ">💬 Conversation Transcript</div>";
    "  "
  ].

Definition htmlHead (sessionId_ createdStr endStr duration status_
    statusUpper count fullName_ email_ companyName_ supplierType_ : string)
    : string :=
  String.concat nl
    (headLines sessionId_ createdStr endStr duration status_ statusUpper
       count fullName_ email_ companyName_ supplierType_).

(** The lines of the template appended for one message, as a function of
    the values it interpolates; [escapedText] stands for
    [escapeHtml(msg.text)]. *)
Definition messageLines (senderClass senderLabel time escapedText : string)
    : list string :=
  [
    "";
    "      <div class=" +:+ dq +:+ "message message-" +:+ senderClass +:+
      dq +:+ ">";
    "        <div class=" +:+ dq +:+ "message-header" +:+ dq +:+ ">";
    "          <span class=" +:+ dq +:+ "message-sender message-sender-" +:+
      senderClass +:+ dq +:+ ">" +:+ senderLabel +:+ "</span>";
    "          <span class=" +:+ dq +:+ "message-time" +:+ dq +:+ ">" +:+
      time +:+ "</span>";
    "        </div>";
    "        <div class=" +:+ dq +:+ "message-text" +:+ dq +:+ ">" +:+
      escapedText +:+ "</div>";
    "      "
  ].

(** The lines of the template appended for a metadata object;
    [escapedMetadata] stands for
    [escapeHtml(JSON.stringify(msg.metadata, null, 2))]. *)
Definition metadataLines (escapedMetadata : string) : list string :=
  [
    "";
    "        <div class=" +:+ dq +:+ "metadata" +:+ dq +:+ ">";
    "          <strong>Metadata:</strong> " +:+ escapedMetadata;
    "        </div>";
    "        "
  ].

(** The block appended for one message. *)
Definition messageHtml (msg : Message) : string :=
  let senderClass := if is_user (sender msg) then "user" else "bot" in
  let senderLabel := if is_user (sender msg) then "User" else "Bot" in
  let time := formatTimestamp (timestamp msg) in
  String.concat nl
    (messageLines senderClass senderLabel time (escapeHtml (text msg)))
  +:+ match shownMetadata msg with
      | Some md =>
          String.concat nl
            (metadataLines (escapeHtml (JSON_stringify R md)))
      | None => ""
      end
  +:+ "</div>".

Definition noMessagesHtml : string :=
  "<p style=" +:+ dq +:+ "color: #666; font-style: italic;" +:+ dq
  +:+ ">(No messages in this session)</p>".

(** The part of the document produced by [messages.forEach]. *)
Definition transcriptHtml (msgs : list Message) : string :=
  match msgs with
  | [] => noMessagesHtml
  | _ => concatAll (map messageHtml msgs)
  end.

Definition htmlFoot (now : Time) : string :=
  String.concat nl [
    "";
    "    </div>";
    "    ";
    "    <div class=" +:+ dq +:+ "footer" +:+ dq +:+ ">";
    "      <p>Generated on " +:+ formatTimestamp now +:+ "</p>";
    "      <p>Yazaki Chatbot System | Session Management</p>";
    "    </div>";
    "  </div>";
    "</body>";
    "</html>";
    "  "
  ].

Definition buildHtmlSummary (now : Time) (session : Session) : string :=
  let endTime := endTimeOf now session in
  let duration := calculateDuration (createdAt session) endTime in
  htmlHead (sessionId session) (formatTimestamp (createdAt session))
    (formatTimestamp endTime) duration (statusName (status session))
    (toUpperCase (statusName (status session)))
    (showZ (Z.of_nat (length (messages session))))
    (fullName (userInfo session)) (email (userInfo session))
    (companyName (userInfo session)) (supplierType (userInfo session))
  +:+ transcriptHtml (messages session)
  +:+ htmlFoot now.

(** The characters [escapeHtml] replaces. *)
Definition specials : list ascii :=
  ["&"; "<"; ">"; ascii_of_nat 34; "'"]%char.

(** The characters that delimit tags and attribute values. *)
Definition isDelimiter (c : ascii) : bool :=
  let n := nat_of_ascii c in
  (n =? 60) || (n =? 62) || (n =? 34) || (n =? 39).

(** The delimiters of a text, in order: its markup skeleton. *)
Fixpoint delimiters (s : string) : string :=
  match s with
  | EmptyString => EmptyString
  | String c rest =>
      if isDelimiter c then String c (delimiters rest) else delimiters rest
  end.

(** Two messages that differ at most in what they say: in their text and in
    the members of a metadata object that is shown for both or for
    neither. *)
Definition sameButContent (m1 m2 : Message) : Prop :=
  sender m1 = sender m2 /\ timestamp m1 = timestamp m2
  /\ (shownMetadata m1 = None <-> shownMetadata m2 = None).

(** The message with another text, or with another metadata object. *)
Definition withText (txt : string) (m : Message) : Message :=
  {| sender := sender m; text := txt; timestamp := timestamp m;
     metadata := metadata m |}.

Definition withMetadata (md : option Metadata) (m : Message) : Message :=
  {| sender := sender m; text := text m; timestamp := timestamp m;
     metadata := md |}.

(** The session with other messages. *)
Definition withMessages (msgs : list Message) (s : Session) : Session :=
  {| sessionId := sessionId s; userInfo := userInfo s; messages := msgs;
     status := status s; createdAt := createdAt s; updatedAt := updatedAt s;
     lastActivity := lastActivity s; endedAt := endedAt s |}.

(** The session with another full name. *)
Definition withFullName (fn : string) (s : Session) : Session :=
  {| sessionId := sessionId s;
     userInfo :=
       {| fullName := fn; email := email (userInfo s);
          companyName := companyName (userInfo s);
          projectName := projectName (userInfo s);
          supplierType := supplierType (userInfo s);
          location := location (userInfo s) |};
     messages := messages s; status := status s; createdAt := createdAt s;
     updatedAt := updatedAt s; lastActivity := lastActivity s;
     endedAt := endedAt s |}.

Record Sent := mkSent {
  sent_messageId : string;
  sent_recipient : string
}.

Definition sendEmail (env : Env) (toEmail subject textContent
    htmlContent : string) : Exn Sent :=
  transporter ← createTransporter env;
  let mailOptions :=
    {| mail_from :=
         or_else (MAIL_FROM env)
           (dq +:+ "Yazaki Chatbot" +:+ dq +:+ " <"
            +:+ default "undefined" (MAIL_USER env) +:+ ">");
       mail_to := toEmail; mail_subject := subject;
       mail_text := textContent; mail_html := htmlContent |} in
  messageId ← transporter mailOptions;
  Return {| sent_messageId := messageId; sent_recipient := toEmail |}.

Record Details := mkDetails {
  recipient : string;
  det_messageCount : nat;
  userEmail : string;
  userName : string
}.

(** The object returned by [sendSummaryEmail], in both of its shapes. *)
Inductive Confirmation :=
| Delivered (message sid messageId : string) (at_ : Time) (details : Details)
| NotDelivered (message sid error : string) (at_ : Time).

Definition success (c : Confirmation) : bool :=
  match c with Delivered _ _ _ _ _ => true | NotDelivered _ _ _ _ => false end.

(** The body of the [try] block. *)
Definition summaryAttempt (env : Env) (now : Time) (sid : string)
    (st : Store) : Exn Confirmation :=
  adminEmail ←
    (if negb (truthy (ADMIN_EMAIL env))
     then Throw "ADMIN_EMAIL not configured in .env file"
     else Return (or_else (ADMIN_EMAIL env) ""));
  session ← fetchSessionData sid st;
  let plainTextSummary := buildPlainTextSummary now session in
  let htmlSummary := buildHtmlSummary now session in
  let subject :=
    "Chat Summary - " +:+ fullName (userInfo session) +:+ " ("
    +:+ companyName (userInfo session) +:+ ") - Session "
    +:+ Text.prefix 8 sid in
  result ← sendEmail env adminEmail subject plainTextSummary htmlSummary;
  Return
    (Delivered ("Email sent successfully to " +:+ adminEmail) sid
       (sent_messageId result) now
       {| recipient := adminEmail;
          det_messageCount := length (messages session);
          userEmail := email (userInfo session);
          userName := fullName (userInfo session) |}).

(** [sendSummaryEmail]: the [catch] turns every error into a value. *)
Definition sendSummaryEmail (env : Env) (now : Time) (sid : string)
    (st : Store) : Confirmation :=
  match summaryAttempt env now sid st with
  | Return confirmation => confirmation
  | Throw e => NotDelivered ("Failed to send email: " +:+ e) sid e now
  end.

End Summaries.

End EmailService.

(** ** backend/controllers/sessionController.js *)

Module SessionController.
Import Text SessionModel EmailService.

(** The [data] member of a successful answer. *)
Inductive Payload :=
| SessionCreated (sid : string) (ui : UserInfo) (stat : Status) (created : Time)
| MessagesData (sid : string) (count : nat) (lastAct : Time) (msgs : list Message)
| SessionEnded (sid : string) (stat : Status) (ended_at : option Time)
    (dur : Z) (count : nat)
| ActivityData (sid : string) (lastAct : Time)
| SessionData (s : Session)
| SummarySent (message : string) (details : Details).

(** [res.status(code).json(...)]: [{success: true, data}],
    [{success: false, error}], [{success: false, message, error}], or the
    answer [{success: false, errors}] of the validation middleware. *)
Inductive Response :=
| Success (code : nat) (data : Payload)
| Failure (code : nat) (error : string)
| FailureWith (code : nat) (message error : string)
| Rejected (code : nat) (errors : list string).

Definition statusCode (r : Response) : nat :=
  match r with
  | Success c _ | Failure c _ | FailureWith c _ _ | Rejected c _ => c
  end.

(** The error taxonomy of the design, read off the status code. *)
Inductive ErrorKind := ValidationError | NotFoundError | UpstreamError.

Definition errorKind (r : Response) : option ErrorKind :=
  match r with
  | Success _ _ => None
  | _ =>
      if statusCode r =? 400 then Some ValidationError
      else if statusCode r =? 404 then Some NotFoundError
      else Some UpstreamError
  end.

(** The user identity as it arrives in [req.body.userInfo]: every member
    may be missing. *)
Record RawUserInfo := mkRaw {
  raw_fullName : option string;
  raw_email : option string;
  raw_companyName : option string;
  raw_projectName : option string;
  raw_supplierType : option string;
  raw_city : option string;
  raw_country : option string
}.

Section Handlers.
Context (V : Virtuals).

Definition createSession (uuid : string) (now : Time)
    (body : option RawUserInfo) (st : Store) : Response * Store :=
  match body with
  | None => (Failure 400 "Missing required user information fields", st)
  | Some ui =>
      if negb (truthy (raw_fullName ui)) || negb (truthy (raw_email ui))
         || negb (truthy (raw_companyName ui))
         || negb (truthy (raw_supplierType ui))
      then (Failure 400 "Missing required user information fields", st)
      else
        let session :=
          newSession now uuid
            {| fullName := or_else (raw_fullName ui) "";
               email := or_else (raw_email ui) "";
               companyName := or_else (raw_companyName ui) "";
               projectName := or_else (raw_projectName ui) "N/A";
               supplierType := or_else (raw_supplierType ui) "";
               location := {| city := raw_city ui;
                              country := raw_country ui |} |}
            [] active in
        (Success 201
           (SessionCreated (sessionId session) (userInfo session)
              (status session) (createdAt session)),
         save session st)
  end.

Definition messagesAnswer (s : Session) : Response :=
  Success 200
    (MessagesData (sessionId s) (messageCount V s) (lastActivity s)
       (messages s)).

(** [!text || text.trim().length === 0]. *)
Definition missingText (body_text : option string) : bool :=
  match body_text with
  | None => true
  | Some txt => is_empty txt || blank txt
  end.

Definition addUserMessage (now : Time) (sid : string)
    (body_text : option string) (st : Store) : Response * Store :=
  if missingText body_text
  then (Failure 400 "Message text is required", st)
  else
    match findOneActive sid st with
    | None => (Failure 404 "Active session not found", st)
    | Some session =>
        let session :=
          addMessage now user (trim (default "" body_text)) None session in
        (messagesAnswer session, save session st)
    end.

Definition addBotMessage (now : Time) (sid : string)
    (body_text : option string) (body_metadata : option Metadata)
    (st : Store) : Response * Store :=
  if missingText body_text
  then (Failure 400 "Message text is required", st)
  else
    match findOneActive sid st with
    | None => (Failure 404 "Active session not found", st)
    | Some session =>
        let session :=
          addMessage now bot (trim (default "" body_text))
            (Some (default [] body_metadata)) session in
        (messagesAnswer session, save session st)
    end.

(** The two appends of one interaction read the clock separately. *)
Definition addChatInteraction (now1 now2 : Time) (sid : string)
    (userMessage botMessage : option string)
    (body_metadata : option Metadata) (st : Store) : Response * Store :=
  if negb (truthy userMessage) || negb (truthy botMessage)
  then (Failure 400 "Both userMessage and botMessage are required", st)
  else
    match findOneActive sid st with
    | None => (Failure 404 "Active session not found", st)
    | Some session =>
        let session :=
          addMessage now1 user (trim (or_else userMessage "")) None
            session in
        let st1 := save session st in
        let session :=
          addMessage now2 bot (trim (or_else botMessage ""))
            (Some (default [] body_metadata)) session in
        (messagesAnswer session, save session st1)
    end.

Definition getSession (sid : string) (st : Store) : Response * Store :=
  match findOne sid st with
  | None => (Failure 404 "Session not found", st)
  | Some session => (Success 200 (SessionData session), st)
  end.

Definition endSession (now : Time) (sid : string) (st : Store)
    : Response * Store :=
  match findOneActive sid st with
  | None => (Failure 404 "Active session not found", st)
  | Some session =>
      let session := endSessionDoc now session in
      (Success 200
         (SessionEnded (sessionId session) (status session)
            (endedAt session) (duration V session)
            (messageCount V session)),
       save session st)
  end.

(** The answers and the final store of a series of [endSession] requests
    for one session, made one after the other at the given clock
    readings. *)
Definition endRepeatedly (sid : string) (nows : list Time) (st : Store)
    : list Response * Store :=
  foldl (fun acc now =>
           let '(r, st') := endSession now sid acc.2 in
           (acc.1 ++ [r], st'))
        ([], st) nows.

Definition updateActivity (now : Time) (sid : string) (st : Store)
    : Response * Store :=
  match findOneActive sid st with
  | None => (Failure 404 "Active session not found", st)
  | Some session =>
      let session := setLastActivity now session in
      (Success 200 (ActivityData (sessionId session) (lastActivity session)),
       save session st)
  end.

Definition sendSessionSummary (R : Runtime) (env : Env) (now : Time)
    (sid : string) (st : Store) : Response * Store :=
  match sendSummaryEmail R env now sid st with
  | Delivered message _ _ _ details =>
      (Success 200 (SummarySent message details), st)
  | NotDelivered message _ error _ => (FailureWith 500 message error, st)
  end.

End Handlers.

End SessionController.

(** ** backend/routes: the validation chain of [POST /api/sessions] *)

Module SessionRoutes.
Import Text SessionModel SessionController.


Section Routes.

(** [isEmail] of validator.js, a library the repository depends on. *)
Variable isEmail : string -> bool.






End Routes.

End SessionRoutes.

(** ** frontend_new/js/chatbot-api.js and config.js *)

Module ChatbotAPI.
Import Text SessionModel.

(** [API_CONFIG.retry]. *)
Record RetryConfig := mkRetry {
  maxAttempts : nat;
  delayMs : Z
}.

Definition API_CONFIG_retry : RetryConfig :=
  {| maxAttempts := 3; delayMs := 1000 |}.

(** The JSON body of an answer, with the members the client reads. *)
Record Body := mkBody {
  body_error : option string;
  body_reply : option string;
  body_response : option string;
  body_session_id : option string;
  body_sources : option (list string);
  body_metadata : option Metadata;
  body_email_sent : bool
}.

(** What [fetch] does: it rejects, or resolves with a status and a body
    that may fail to parse as JSON. *)
Inductive FetchOutcome :=
| NetworkError (message : string)
| Http (status : nat) (body : option Body).

(** [response.ok]. *)
Definition ok (status : nat) : bool := (200 <=? status) && (status <=? 299).

(** The request the client posts to the chat endpoint. *)
Record ChatRequest := mkChatRequest {
  req_message : string;
  req_session_id : string;
  req_user_state : list (string * string)
}.

(** What the client posts: a chat request, or the request to close a
    session, with its [send_email] flag. *)
Inductive Request :=
| PostChat (payload : ChatRequest)
| PostClose (session_id : string) (send_email : bool).

(** The network and the server behind it: the outcome of the [n]-th
    [fetch] of the page, given what was sent. *)
Definition Server := nat -> Request -> FetchOutcome.

(** The client object, [localStorage] under the session key, and a record
    of what happened: calls of [sendMessage], calls of [fetch], and the
    delays slept, latest first. *)
Record Client := mkClient {
  sessionId : string;
  storage : option string;
  calls : nat;
  fetches : nat;
  slept : list Z
}.

Record Reply := mkReply {
  reply : string;
  reply_session_id : string;
  sources : list string;
  reply_metadata : Metadata
}.

(** A settled promise; the rejection reason is [undefined] when
    [lastError] was never assigned. *)
Inductive Settled (A : Type) :=
| Resolved (a : A)
| Rejected (reason : option string).
Arguments Resolved {A} a.
Arguments Rejected {A} reason.

Definition showNat (n : nat) : string :=
  NilZero.string_of_uint (Nat.to_uint n).



Section Api.
Variable server : Server.

Definition sendMessage (message : string)
    (userInfo : list (string * string)) (c : Client)
    : Settled Reply * Client :=
  let c := {| sessionId := sessionId c; storage := storage c;
              calls := S (calls c); fetches := fetches c;
              slept := slept c |} in
  if is_empty message || is_empty (trim message)
  then (Rejected (Some "Message cannot be empty"), c)
  else
    let payload :=
      {| req_message := trim message; req_session_id := sessionId c;
         req_user_state := ("form_completed", "true") :: userInfo |} in
    let outcome := server (fetches c) (PostChat payload) in
    let c := {| sessionId := sessionId c; storage := storage c;
                calls := calls c; fetches := S (fetches c);
                slept := slept c |} in
    match outcome with
    | NetworkError e => (Rejected (Some e), c)
    | Http status body =>
        if negb (ok status)
        then (Rejected
                (Some (or_else (body ≫= body_error)
                         ("HTTP " +:+ showNat status))), c)
        else
          match body with
          | None => (Rejected (Some "Unexpected end of JSON input"), c)
          | Some data =>
              let c :=
                if truthy (body_session_id data)
                   && negb (String.eqb (or_else (body_session_id data) "")
                              (sessionId c))
                then {| sessionId := or_else (body_session_id data) "";
                        storage := Some (or_else (body_session_id data) "");
                        calls := calls c; fetches := fetches c;
                        slept := slept c |}
                else c in
              (Resolved
                 {| reply := or_else (body_reply data)
                               (or_else (body_response data) "");
                    reply_session_id :=
                      or_else (body_session_id data) (sessionId c);
                    sources := default [] (body_sources data);
                    reply_metadata := default [] (body_metadata data) |},
               c)
          end
    end.

Definition sleep (ms : Z) (c : Client) : Client :=
  {| sessionId := sessionId c; storage := storage c; calls := calls c;
     fetches := fetches c; slept := ms :: slept c |}.

(** The [for] loop of [sendMessageWithRetry], entered with [attempt] and
    with [remaining] iterations left before [attempt] exceeds
    [maxAttempts]. *)
Fixpoint retryLoop (cfg : RetryConfig) (remaining attempt : nat)
    (lastError : option string) (message : string)
    (userInfo : list (string * string)) (c : Client)
    : Settled Reply * Client :=
  match remaining with
  | O => (Rejected lastError, c)
  | S k =>
      match sendMessage message userInfo c with
      | (Resolved r, c) => (Resolved r, c)
      | (Rejected error, c) =>
          let c :=
            if attempt <? maxAttempts cfg
            then sleep (delayMs cfg * Z.of_nat attempt) c
            else c in
          retryLoop cfg k (S attempt) error message userInfo c
      end
  end.

Definition sendMessageWithRetry (cfg : RetryConfig) (message : string)
    (userInfo : list (string * string)) (c : Client)
    : Settled Reply * Client :=
  retryLoop cfg (maxAttempts cfg) 1 None message userInfo c.

(** [resetSession]: the stored id is dropped and a new local id, built
    from the clock and a random number, takes its place. *)
Definition resetSession (fresh : string) (c : Client) : Client :=
  {| sessionId := fresh; storage := Some fresh; calls := calls c;
     fetches := fetches c; slept := slept c |}.

(** [closeSession(sendEmail)]: one [POST] to [.../close]. *)
Definition closeSession (sendEmail : bool) (fresh : string) (c : Client)
    : Settled Body * Client :=
  if is_empty (sessionId c)
  then (Rejected (Some "No active session to close"), c)
  else
    let outcome := server (fetches c) (PostClose (sessionId c) sendEmail) in
    let c := {| sessionId := sessionId c; storage := storage c;
                calls := calls c; fetches := S (fetches c);
                slept := slept c |} in
    match outcome with
    | NetworkError e => (Rejected (Some e), c)
    | Http status body =>
        if negb (ok status)
        then (Rejected
                (Some (or_else (body ≫= body_error)
                         ("HTTP " +:+ showNat status))), c)
        else
          match body with
          | None => (Rejected (Some "Unexpected end of JSON input"), c)
          | Some data => (Resolved data, resetSession fresh c)
          end
    end.

End Api.

End ChatbotAPI.

(** ** frontend_new/js/chatbot-ui.js: closing the chat window *)

Module ChatbotUI.
Import Text ChatbotAPI.


Section Ui.
Variable server : Server.



End Ui.

End ChatbotUI.

(** ** The event stream of [POST /api/stream] and its consumer *)

Module Streaming.
Import Text SessionModel.

(** The events on the wire: the JSON objects and the [[DONE]] line. *)
Inductive StreamEvent :=
| EvStatus (status session_id : string)
| EvData (chunk accumulated : string) (done : bool)
    (metadata : option Metadata)
| EvError (error : string)
| EvSentinel.

(** How the generation step ended. *)
Inductive Ending :=
| Completed (metadata : Metadata)
| Failed (message : string).

(** What the generation collaborator produced for one request: the text
    fragments in production order, and how it ended. *)
Record Generation := mkGeneration {
  fragments : list string;
  ending : Ending
}.

(** The reply of the non-streaming path for the same generation. *)
Definition fullText (g : Generation) : string := concatAll (fragments g).

(** Modelled from the spec: the streaming producer (backend/api.py) is not
    among the sources.  One event per fragment, "strictly in production
    order", whose [accumulated] is "the concatenation of every chunk
    emitted so far in this stream (including the current one)". *)
Fixpoint chunkEvents (sofar : string) (frags : list string)
    : list StreamEvent :=
  match frags with
  | [] => []
  | f :: rest =>
      EvData f (sofar +:+ f) false None :: chunkEvents (sofar +:+ f) rest
  end.

Section Producer.

(** The design does not say whether the end-of-stream line still follows
    an error event; both readings are kept. *)
Variable sentinelAfterError : bool.

(** Modelled from the spec: the streaming producer is not among the
    sources.  Sequencing rules 1 to 5 of the Streaming Coordinator, and
    its failure rule: "instead of further chunk events emit
    {error:<message>} and still terminate the stream". *)
Definition stream (session_id : string) (g : Generation)
    : list StreamEvent :=
  [EvStatus "retrieving" session_id; EvStatus "generating" session_id]
  ++ chunkEvents "" (fragments g)
  ++ match ending g with
     | Completed md => [EvData "" (fullText g) true (Some md); EvSentinel]
     | Failed msg =>
         EvError msg :: (if sentinelAfterError then [EvSentinel] else [])
     end.

End Producer.

(** The events [{chunk, accumulated, done: false}]. *)
Definition isChunkEvent (e : StreamEvent) : bool :=
  match e with EvData _ _ false _ => true | _ => false end.




(** *** frontend/static/chat.js, [handleStreamingChat]

    The page state the loop touches.  [messageElement] holds the text
    whose formatted form is shown in the assistant bubble. *)
Record Page := mkPage {
  sessionId : option string;
  chatHistory : list (string * string);
  messageElement : option string;
  accumulatedResponse : string;
  errorsShown : list string;
  typing : bool
}.

(** The body of the [for (const line of lines)] loop for one event, and
    whether the function returns after it. *)
Definition onEvent (message : string) (e : StreamEvent) (p : Page)
    : Page * bool :=
  match e with
  | EvSentinel =>
      ({| sessionId := sessionId p; chatHistory := chatHistory p;
          messageElement := messageElement p;
          accumulatedResponse := accumulatedResponse p;
          errorsShown := errorsShown p; typing := false |}, true)
  | EvError err =>
      if is_empty err then (p, false)
      else
        ({| sessionId := sessionId p; chatHistory := chatHistory p;
            messageElement := messageElement p;
            accumulatedResponse := accumulatedResponse p;
            errorsShown := errorsShown p ++ [err]; typing := typing p |},
         true)
  | EvStatus _ sid =>
      ({| sessionId :=
            if negb (is_empty sid) && negb (truthy (sessionId p))
            then Some sid else sessionId p;
          chatHistory := chatHistory p;
          messageElement := messageElement p;
          accumulatedResponse := accumulatedResponse p;
          errorsShown := errorsShown p; typing := typing p |}, false)
  | EvData chunk accumulated done _ =>
      let create :=
        negb (is_empty chunk)
        && (if messageElement p is None then true else false) in
      let element := if create then Some "" else messageElement p in
      let shown := if create then false else typing p in
      let acc :=
        if is_empty accumulated then accumulatedResponse p
        else accumulated in
      let element :=
        if is_empty accumulated then element
        else if element is Some _ then Some acc else None in
      let history :=
        if done
        then chatHistory p ++ [("user", message); ("assistant", acc)]
        else chatHistory p in
      ({| sessionId := sessionId p; chatHistory := history;
          messageElement := element; accumulatedResponse := acc;
          errorsShown := errorsShown p; typing := shown |}, done)
  end.

(** The loop over the events that arrive, until one of them returns or the
    reader reports the end of the body.  The function starts with
    [accumulatedResponse = ''] and [messageElement = null]. *)
Fixpoint consume (message : string) (events : list StreamEvent) (p : Page)
    : Page :=
  match events with
  | [] => p
  | e :: rest =>
      let '(p', stop) := onEvent message e p in
      if stop then p' else consume message rest p'
  end.

(** [handleStreamingChat] once the request has been sent: the loop, then
    the [finally] block. *)
Definition handleStreamingChat (message : string)
    (events : list StreamEvent) (p : Page) : Page :=
  let p := {| sessionId := sessionId p; chatHistory := chatHistory p;
              messageElement := None; accumulatedResponse := "";
              errorsShown := errorsShown p; typing := true |} in
  let p := consume message events p in
  {| sessionId := sessionId p; chatHistory := chatHistory p;
     messageElement := messageElement p;
     accumulatedResponse := accumulatedResponse p;
     errorsShown := errorsShown p; typing := false |}.

End Streaming.

(** ** The response coordinator and the topic processors *)

Module ResponseCoordinator.
Import Text.

Record LinkRef := mkLink {
  label : string;
  url : string
}.

(** Modelled from the spec: the processors (backend/src/agents) are not
    among the sources.  A processor is configuration: a detector over the
    answer and the query, which may raise, its own phrasing, and its
    ordered links. *)
Record Processor := mkProcessor {
  name : string;
  matches : string -> string -> Exn bool;
  phrasing : string;
  links : list LinkRef
}.

(** Modelled from the spec: "A processor whose evaluation raises an error
    is treated as non-firing". *)
Definition fires (answerText queryText : string) (p : Processor) : bool :=
  match matches p answerText queryText with
  | Return b => b
  | Throw _ => false
  end.

(** Modelled from the spec: "the sub-sequence of processors (preserving
    registration order) for which matches is true". *)
Definition firing (answerText queryText : string)
    (processors : list Processor) : list Processor :=
  List.filter (fires answerText queryText) processors.

(** Modelled from the spec: links are added in order, "skipping any
    LinkRef whose url has already been added". *)
Fixpoint addLinks (added : list LinkRef) (candidates : list LinkRef)
    : list LinkRef :=
  match candidates with
  | [] => added
  | l :: rest =>
      if bool_decide (url l ∈ map url added)
      then addLinks added rest
      else addLinks (added ++ [l]) rest
  end.

(** Modelled from the spec: "the union of all LinkRef from every firing
    processor, in the order their owning processor was registered". *)
Definition unifiedLinks (fs : list Processor) : list LinkRef :=
  addLinks [] (flat_map links fs).

(** The wording of the blocks, as shown in the integration summary of the
    processors. *)
Definition neutralIntro : string :=
  "**For guidance on the processes mentioned above through the supplier portal [(EmpowerQLM)](https://yazakieurope.empowerqlm.com/Dashboard), please refer to the comprehensive guides below:**".

Definition bulletLine (l : LinkRef) : string :=
  "  • **[" +:+ label l +:+ "](" +:+ url l +:+ ")**".

Definition bookLine (l : LinkRef) : string :=
  "📘 **[" +:+ label l +:+ "](" +:+ url l +:+ ")**".

Definition ownBlock (p : Processor) : string :=
  nl +:+ nl +:+ phrasing p +:+ nl +:+ nl
  +:+ String.concat nl (map bookLine (links p)).

Definition unifiedBlock (ls : list LinkRef) : string :=
  nl +:+ nl +:+ neutralIntro +:+ nl +:+ nl
  +:+ String.concat nl (map bulletLine ls).

(** Modelled from the spec: the coordinator (response_coordinator.py) is
    not among the sources.  Steps 1 to 6 of [augment]. *)
Definition augment (answerText queryText : string)
    (processors : list Processor) : string :=
  match firing answerText queryText processors with
  | [] => answerText
  | [p] => answerText +:+ ownBlock p
  | fs => answerText +:+ unifiedBlock (unifiedLinks fs)
  end.

End ResponseCoordinator.

(** ** The life of a session: sequences of requests and the sweep *)

Module Lifecycle.
Import Text SessionModel EmailService SessionController.

(** Modelled from the spec: the inactivity sweep is not among the sources.
    A session is due when it has "status=active and
    now - lastActivity > timeout". *)
Definition due (timeout : Z) (now : Time) (s : Session) : bool :=
  is_active (status s) && (timeout <? now - lastActivity s)%Z.

(** Modelled from the spec: the sweep "transitions it to expired, sets
    endedAt=now". *)
Definition expire (now : Time) (s : Session) : Session :=
  {| sessionId := sessionId s; userInfo := userInfo s;
     messages := messages s; status := expired;
     createdAt := createdAt s; updatedAt := now;
     lastActivity := lastActivity s; endedAt := Some now |}.

(** Modelled from the spec: [sweepExpired(timeout)], which expires every
    due session and "emits exactly one session-expired notification per
    session"; the notifications are the ids of the sessions expired. *)
Definition sweepExpired (timeout : Z) (now : Time) (st : Store)
    : Store * list string :=
  ((fun s => if due timeout now s then expire now s else s) <$> st,
   (map_to_list (filter (fun kv => due timeout now kv.2 = true) st)).*1).


(** One request to the session endpoints, or one pass of the sweep. *)
Inductive Op :=
| Create (uuid : string) (body : option RawUserInfo)
| AppendUser (sid : string) (body_text : option string)
| AppendBot (sid : string) (body_text : option string)
    (body_metadata : option Metadata)
| Interaction (sid : string) (userMessage botMessage : option string)
    (body_metadata : option Metadata) (second : Time)
| Touch (sid : string)
| Finish (sid : string)
| Sweep (timeout : Z).

Section Runs.
Context (V : Virtuals).

(** The store after the operation, performed at clock reading [now]. *)
Definition perform (now : Time) (op : Op) (st : Store) : Store :=
  match op with
  | Create uuid body => (createSession uuid now body st).2
  | AppendUser sid txt => (addUserMessage V now sid txt st).2
  | AppendBot sid txt md => (addBotMessage V now sid txt md st).2
  | Interaction sid u b md second =>
      (addChatInteraction V now second sid u b md st).2
  | Touch sid => (updateActivity now sid st).2
  | Finish sid => (endSession V now sid st).2
  | Sweep timeout => (sweepExpired timeout now st).1
  end.


Fixpoint run (st : Store) (ops : list (Time * Op)) : Store :=
  match ops with
  | [] => st
  | (now, op) :: rest => run (perform now op st) rest
  end.


End Runs.





End Lifecycle.

(** ** Concurrent handlers on one collection *)

Module Concurrency.
Import Text SessionModel SessionController.

(** The body of one of the three requests that append. *)
Inductive Request :=
| UserMessage (body_text : option string)
| BotMessage (body_text : option string) (body_metadata : option Metadata)
| ChatInteraction (userMessage botMessage : option string)
    (body_metadata : option Metadata).

(** What a message says, apart from the time it was stored. *)
Definition Content : Type := Sender * string * option Metadata.


(** The input validation at the head of each handler. *)
Definition accepted (r : Request) : bool :=
  match r with
  | UserMessage txt | BotMessage txt _ => negb (missingText txt)
  | ChatInteraction u b _ => truthy u && truthy b
  end.

(** The calls of [session.addMessage] a handler makes once it has found
    the session, in order. *)
Definition appends (r : Request) : list Content :=
  if accepted r then
    match r with
    | UserMessage txt => [(user, trim (default "" txt), None)]
    | BotMessage txt md =>
        [(bot, trim (default "" txt), Some (default [] md))]
    | ChatInteraction u b md =>
        [(user, trim (or_else u ""), None);
         (bot, trim (or_else b ""), Some (default [] md))]
    end
  else [].

(** A handler between two of its [await]s: it has not run yet; it holds
    the document [findOne] gave it and still has appends to make; or it
    has answered. *)
Inductive Handler :=
| Pending (r : Request)
| Holding (doc : Session) (todo : list Content)
| Answered (code : nat).

Definition answered (h : Handler) : bool :=
  match h with Answered _ => true | _ => false end.


(** Modelled from the spec: [addMessage] of models/Session.js is not among
    the sources.  The save of an append is the "per-session atomic append"
    of the persistence adapter: it appends to the stored document, whatever
    the copy held by the handler looks like. *)
Definition atomicAppend (now : Time) (sid : string) (c : Content)
    (st : Store) : Store :=
  alter (addMessage now c.1.1 c.1.2 c.2) sid st.

(** One uninterrupted stretch of a handler for session [sid], from one
    [await] to the next, at clock reading [now]. *)
Definition advance (now : Time) (sid : string) (h : Handler) (st : Store)
    : Handler * Store :=
  match h with
  | Pending r =>
      if accepted r then
        match findOneActive sid st with
        | None => (Answered 404, st)
        | Some doc => (Holding doc (appends r), st)
        end
      else (Answered 400, st)
  | Holding doc [] => (Answered 200, st)
  | Holding doc (c :: todo) =>
      (Holding (addMessage now c.1.1 c.1.2 c.2 doc) todo,
       atomicAppend now sid c st)
  | Answered code => (Answered code, st)
  end.

(** The scheduler picks handler [i] and runs it to its next [await]. *)
Definition schedule1 (sid : string) (pick : nat * Time)
    (cfg : Store * list Handler) : Store * list Handler :=
  match cfg.2 !! pick.1 with
  | None => cfg
  | Some h =>
      let '(h', st') := advance pick.2 sid h cfg.1 in
      (st', <[pick.1 := h']> cfg.2)
  end.

Definition runSchedule (sid : string) (picks : list (nat * Time))
    (cfg : Store * list Handler) : Store * list Handler :=
  foldl (fun c p => schedule1 sid p c) cfg picks.

Definition allAnswered (cfg : Store * list Handler) : bool :=
  forallb answered cfg.2.


(** The schedule that runs the handlers one after the other: each needs
    at most four stretches. *)
Definition sequential (n : nat) (now : Time) : list (nat * Time) :=
  flat_map (fun i => [(i, now); (i, now); (i, now); (i, now)]) (seq 0 n).

End Concurrency.

(** ** Sample data *)

Module Fixtures.
Import Text SessionModel SessionController.

Definition virtuals : Virtuals :=
  {| messageCount := fun s => length (messages s);
     duration := fun s => (default (lastActivity s) (endedAt s) - createdAt s)%Z |}.

Definition jane : UserInfo :=
  {| fullName := "Jane Doe"; email := "jane@x.com"; companyName := "Acme";
     projectName := "N/A"; supplierType := "Current Supplier";
     location := {| city := None; country := None |} |}.

Definition janeRaw : RawUserInfo :=
  {| raw_fullName := Some "Jane Doe"; raw_email := Some "jane@x.com";
     raw_companyName := Some "Acme"; raw_projectName := None;
     raw_supplierType := Some "Current Supplier";
     raw_city := None; raw_country := None |}.

(** A session created at clock reading 1000. *)
Definition session1 : Session := newSession 1000%Z "s-1" jane [] active.

Definition store1 : Store := {[ "s-1" := session1 ]}.



(** A day in the life of [session1]: a message, a keep-alive, a second
    visitor, the end of the session, a late message and a sweep. *)
Definition day1 : list (Time * Lifecycle.Op) :=
  [ (2000%Z, Lifecycle.AppendUser "s-1" (Some "What is PPAP?"));
    (3000%Z, Lifecycle.Touch "s-1");
    (3500%Z, Lifecycle.Create "s-2" (Some janeRaw));
    (4000%Z, Lifecycle.Finish "s-1");
    (5000%Z, Lifecycle.AppendUser "s-1" (Some "late"));
    (9000%Z, Lifecycle.Sweep 1000%Z) ].



(** Two processors that fire and share a link, and one that raises. *)
Definition handbook : ResponseCoordinator.LinkRef :=
  {| ResponseCoordinator.label := "Supplier Quality Handbook";
     ResponseCoordinator.url := "https://example.com/handbook.pdf" |}.

Definition apqp : ResponseCoordinator.Processor :=
  {| ResponseCoordinator.name := "APQP";
     ResponseCoordinator.matches := fun _ _ => Return true;
     ResponseCoordinator.phrasing := "**For guidance on APQP, see:**";
     ResponseCoordinator.links :=
       [ {| ResponseCoordinator.label := "APQP Quick Access Guide";
            ResponseCoordinator.url := "https://example.com/apqp.pdf" |};
         handbook ] |}.

Definition ppap : ResponseCoordinator.Processor :=
  {| ResponseCoordinator.name := "PPAP";
     ResponseCoordinator.matches := fun _ _ => Return true;
     ResponseCoordinator.phrasing := "**For guidance on PPAP, see:**";
     ResponseCoordinator.links :=
       [ {| ResponseCoordinator.label := "PPAP Submission Guide";
            ResponseCoordinator.url := "https://example.com/ppap.pdf" |};
         {| ResponseCoordinator.label := "Handbook (copy)";
            ResponseCoordinator.url := "https://example.com/handbook.pdf" |} ] |}.

Definition broken : ResponseCoordinator.Processor :=
  {| ResponseCoordinator.name := "SICR";
     ResponseCoordinator.matches := fun _ _ => Throw "detector failed";
     ResponseCoordinator.phrasing := "**For guidance on SICR, see:**";
     ResponseCoordinator.links :=
       [ {| ResponseCoordinator.label := "SICR Guide";
            ResponseCoordinator.url := "https://example.com/sicr.pdf" |} ] |}.

(** A server that answers every request with 404. *)
Definition alwaysNotFound : ChatbotAPI.Server :=
  fun _ _ =>
    ChatbotAPI.Http 404
      (Some {| ChatbotAPI.body_error := Some "Active session not found";
               ChatbotAPI.body_reply := None;
               ChatbotAPI.body_response := None;
               ChatbotAPI.body_session_id := None;
               ChatbotAPI.body_sources := None;
               ChatbotAPI.body_metadata := None;
               ChatbotAPI.body_email_sent := false |}).

Definition client0 : ChatbotAPI.Client :=
  {| ChatbotAPI.sessionId := "s-1"; ChatbotAPI.storage := Some "s-1";
     ChatbotAPI.calls := 0; ChatbotAPI.fetches := 0;
     ChatbotAPI.slept := [] |}.

(** A runtime whose clock shows the first of January 2025, midnight. *)
Definition runtime0 : EmailService.Runtime :=
  {| EmailService.getFullYear := fun _ => 2025%Z;
     EmailService.getMonth := fun _ => 0%Z;
     EmailService.getDate := fun _ => 1%Z;
     EmailService.getHours := fun _ => 0%Z;
     EmailService.getMinutes := fun _ => 0%Z;
     EmailService.JSON_stringify := fun _ => "{}" |}.


(** A session with one message that looks like markup, and the message it
    is compared with. *)
Definition scriptMessage : Message :=
  {| sender := user; text := "<script>alert('x')</script>";
     timestamp := 1500%Z; metadata := None |}.

Definition plainMessage : Message :=
  {| sender := user; text := "hello"; timestamp := 1500%Z;
     metadata := None |}.

Definition session2 : Session :=
  newSession 1000%Z "s-2" jane [plainMessage] active.

End Fixtures.

(** ** backend/controllers/sessionController.js: the reading handlers *)

Module SessionQueries.
Import Text SessionModel SessionController.

(** An answer [{success: true, ...}] with its members, or
    [{success: false, error}]. *)
Inductive Answer (A : Type) :=
| Answered (code : nat) (data : A)
| Refused (code : nat) (error : string).
Arguments Answered {A} code data.
Arguments Refused {A} code error.

(** A number as [parseInt] returns it: an integer, or [NaN] ([None]). *)
Definition Num := option Z.

(** [a + b] on such numbers: [NaN] if either is. *)
Definition plus (a b : Num) : Num :=
  match a, b with
  | Some x, Some y => Some (x + y)%Z
  | _, _ => None
  end.

(** The index that [Array.prototype.slice] makes of an argument for an
    array of length [len]: [NaN] counts as 0, a negative number counts from
    the end, and the result is kept within [0] and [len]. *)
Definition relativeIndex (len : Z) (i : Num) : Z :=
  match i with
  | None => 0%Z
  | Some k => if (k <? 0)%Z then Z.max (len + k) 0 else Z.min k len
  end.

(** [l.slice(start, finish)]. *)
Definition slice {A} (start finish : Num) (l : list A) : list A :=
  let len := Z.of_nat (length l) in
  let k := relativeIndex len start in
  let final := relativeIndex len finish in
  take (Z.to_nat (Z.max (final - k) 0)) (drop (Z.to_nat k) l).

(** The [data] member of the answer of [getMessages]. *)
Record MessagesPage := mkMessagesPage {
  page_sessionId : string;
  total : nat;
  returned : nat;
  page_messages : list Message
}.

Section Queries.

(** [parseInt] of the JavaScript runtime, on a query string. *)
Variable parseInt : string -> Num.

(** [const { limit = 100, skip = 0 } = req.query] followed by [parseInt]:
    the default is a number, which [parseInt] gives back. *)
Definition queryNumber (v : option string) (d : Z) : Num :=
  match v with
  | None => Some d
  | Some s => parseInt s
  end.

Definition getMessages (sid : string) (limit skip : option string)
    (st : Store) : Answer MessagesPage * Store :=
  match findOne sid st with
  | None => (Refused 404 "Session not found", st)
  | Some session =>
      let skip := queryNumber skip 0 in
      let limit := queryNumber limit 100 in
      let msgs := slice skip (plus skip limit) (messages session) in
      (Answered 200
         {| page_sessionId := sessionId session;
            total := length (messages session);
            returned := length msgs;
            page_messages := msgs |},
       st)
  end.

End Queries.

(** The messages an answer carries; a refusal carries none. *)
Definition pageOf (a : Answer MessagesPage * Store) : list Message :=
  match a.1 with
  | Answered _ d => page_messages d
  | Refused _ _ => []
  end.

(** A session document without its [messages], as [select('-messages')]
    returns it. *)
Record SessionHeader := mkHeader {
  h_sessionId : string;
  h_userInfo : UserInfo;
  h_status : Status;
  h_createdAt : Time;
  h_updatedAt : Time;
  h_lastActivity : Time;
  h_endedAt : option Time
}.

Definition withoutMessages (s : Session) : SessionHeader :=
  {| h_sessionId := sessionId s; h_userInfo := userInfo s;
     h_status := status s; h_createdAt := createdAt s;
     h_updatedAt := updatedAt s; h_lastActivity := lastActivity s;
     h_endedAt := endedAt s |}.

(** The order of [sort({ lastActivity: -1 })]. *)
Definition moreRecent (a b : Session) : Prop :=
  (lastActivity b <= lastActivity a)%Z.

#[global] Instance moreRecent_dec : RelDecision moreRecent :=
  fun a b => Z_le_dec (lastActivity b) (lastActivity a).

(** The answer [{success: true, count, data}] of [getActiveSessions]. *)
Record ActiveSessions := mkActiveSessions {
  count : nat;
  data : list SessionHeader
}.

(** [Session.find({ status: 'active' }).sort({ lastActivity: -1 })
    .select('-messages')].  The order among sessions with the same
    [lastActivity] is the database's; the model takes the one of a merge
    sort of the collection. *)
Definition getActiveSessions (st : Store) : ActiveSessions * Store :=
  let sessions :=
    merge_sort moreRecent
      (List.filter (fun s => is_active (status s)) (map_to_list st).*2) in
  let sessions := withoutMessages <$> sessions in
  ({| count := length sessions; data := sessions |}, st).

End SessionQueries.

(** ** backend/routes: the chains in front of the message handlers *)

Module MessageRoutes.
Import Text SessionModel SessionController.

Section Routes.
Context (V : Virtuals).

(** [isUUID] of validator.js, a library the repository depends on. *)
Variable isUUID : string -> bool.







End Routes.

End MessageRoutes.

(** ** frontend_new/js/chatbot-api.js: the local session id *)

Module ChatbotSession.
Import Text ChatbotAPI.

(** ['session_' + Date.now() + '_' + Math.random().toString(36).substr(2, 9)],
    with the clock reading and the random digits as texts. *)
Definition newLocalId (stamp rand : string) : string :=
  "session_" +:+ stamp +:+ "_" +:+ rand.

(** [getOrCreateSessionId]: the id and what [localStorage] holds under the
    session key afterwards. *)
Definition getOrCreateSessionId (stamp rand : string)
    (stored : option string) : string * option string :=
  if truthy stored then (or_else stored "", stored)
  else
    let sessionId := newLocalId stamp rand in
    (sessionId, Some sessionId).

(** The constructor, as far as the session id goes. *)
Definition construct (stamp rand : string) (stored : option string)
    : Client :=
  let '(id, kept) := getOrCreateSessionId stamp rand stored in
  {| sessionId := id; storage := kept; calls := 0; fetches := 0;
     slept := [] |}.

(** The client and [localStorage] agree on a session id that is not
    empty. *)
Definition tracked (c : Client) : Prop :=
  storage c = Some (sessionId c) /\ is_empty (sessionId c) = false.

Section Api.
Variable server : Server.

(** The answers of the sessions endpoint to [POST { user_info }]: the
    outcome of the [n]-th [fetch] of the page, given what was sent. *)
Variable sessions : nat -> list (string * string) -> FetchOutcome.

Definition createSession (userInfo : list (string * string)) (c : Client)
    : Settled Body * Client :=
  let outcome := sessions (fetches c) userInfo in
  let c := {| sessionId := sessionId c; storage := storage c;
              calls := calls c; fetches := S (fetches c);
              slept := slept c |} in
  match outcome with
  | NetworkError e => (Rejected (Some e), c)
  | Http status body =>
      if negb (ok status)
      then (Rejected
              (Some (or_else (body ≫= body_error)
                       ("HTTP " +:+ showNat status))), c)
      else
        match body with
        | None => (Rejected (Some "Unexpected end of JSON input"), c)
        | Some data =>
            let c :=
              if truthy (body_session_id data)
              then {| sessionId := or_else (body_session_id data) "";
                      storage := Some (or_else (body_session_id data) "");
                      calls := calls c; fetches := fetches c;
                      slept := slept c |}
              else c in
            (Resolved data, c)
        end
  end.

(** One use of the client object by the page. *)
Inductive Call :=
| CallCreateSession (userInfo : list (string * string))
| CallSendMessage (message : string) (userInfo : list (string * string))
| CallSendMessageWithRetry (cfg : RetryConfig) (message : string)
    (userInfo : list (string * string))
| CallResetSession (stamp rand : string)
| CallCloseSession (sendEmail : bool) (stamp rand : string).

(** The client after the call has settled. *)
Definition call (k : Call) (c : Client) : Client :=
  match k with
  | CallCreateSession userInfo => (createSession userInfo c).2
  | CallSendMessage message userInfo =>
      (sendMessage server message userInfo c).2
  | CallSendMessageWithRetry cfg message userInfo =>
      (sendMessageWithRetry server cfg message userInfo c).2
  | CallResetSession stamp rand => resetSession (newLocalId stamp rand) c
  | CallCloseSession sendEmail stamp rand =>
      (closeSession server sendEmail (newLocalId stamp rand) c).2
  end.

(** The client after a series of calls, each started when the one before
    has settled. *)
Definition afterCalls (ks : list Call) (c : Client) : Client :=
  foldl (fun c k => call k c) c ks.

End Api.

End ChatbotSession.

(** ** frontend_new/js/chatbot-ui.js: the form, sending, the clock *)

Module ChatbotForm.
Import Text ChatbotAPI ChatbotSession.

(** The class [[^\s@]]. *)
Definition plainChar (c : ascii) : bool :=
  negb (is_space c) && negb (Ascii.eqb c "@").

Fixpoint allPlain (s : string) : bool :=
  match s with
  | EmptyString => true
  | String c rest => plainChar c && allPlain rest
  end.


(** A dot that has a character after it. *)
Fixpoint dotInside (s : string) : bool :=
  match s with
  | EmptyString => false
  | String c rest =>
      (Ascii.eqb c "." && negb (is_empty rest)) || dotInside rest
  end.

(** The part after the [@]: characters of the class only, with a dot that
    is neither the first nor the last of them. *)
Definition domainOk (s : string) : bool :=
  match s with
  | EmptyString => false
  | String _ rest => allPlain s && dotInside rest
  end.

(** The test of the pattern from the left; [seen] tells whether a character
    of the first run has been read. *)
Fixpoint testFrom (seen : bool) (s : string) : bool :=
  match s with
  | EmptyString => false
  | String c rest =>
      if Ascii.eqb c "@" then seen && domainOk rest
      else plainChar c && testFrom true rest
  end.

(** [isValidEmail]: [emailRegex.test(email)]. *)
Definition isValidEmail (email : string) : bool := testFrom false email.


(** [this.userInfo]. *)
Record ClientUserInfo := mkClientUserInfo {
  full_name : string;
  email : string;
  company_name : string;
  supplier_type : string;
  project_name : string;
  city : string;
  country : string;
  wants_updates : bool
}.

(** The members of the object, as they are sent. *)
Definition entries (u : ClientUserInfo) : list (string * string) :=
  [ ("full_name", full_name u); ("email", email u);
    ("company_name", company_name u); ("supplier_type", supplier_type u);
    ("project_name", project_name u); ("city", city u);
    ("country", country u);
    ("wants_updates", if wants_updates u then "true" else "false") ].

Inductive BubbleType := UserBubble | BotBubble.

(** The widget: the client object, the members of [ChatbotUI], what
    [localStorage] holds under [yazaki_user_info], the field errors that
    are shown, the messages [addMessage] has put into the window and the
    alerts raised. *)
Record Widget := mkWidget {
  api : Client;
  userInfo : option ClientUserInfo;
  formSubmitted : bool;
  isWaitingForResponse : bool;
  savedUserInfo : option ClientUserInfo;
  shownErrors : list string;
  bubbles : list (BubbleType * string);
  alerts : list string
}.




Definition apology : string :=
  "Sorry, I encountered an error processing your message. Please try again.".

(** [this.userInfo || {}], spread into the request. *)
Definition userState (u : option ClientUserInfo) : list (string * string) :=
  match u with
  | Some info => entries info
  | None => []
  end.

Section Ui.
Variable server : Server.
Variable sessions : nat -> list (string * string) -> FetchOutcome.


(** [handleSend] with [input] in the text field, from the click to the end
    of the [finally] block. *)
Definition handleSend (cfg : RetryConfig) (input : string) (w : Widget)
    : Widget :=
  let message := trim input in
  if is_empty message || isWaitingForResponse w then w
  else
    let shown := bubbles w ++ [(UserBubble, message)] in
    match
      sendMessageWithRetry server cfg message (userState (userInfo w))
        (api w)
    with
    | (Resolved response, c) =>
        {| api := c; userInfo := userInfo w;
           formSubmitted := formSubmitted w; isWaitingForResponse := false;
           savedUserInfo := savedUserInfo w; shownErrors := shownErrors w;
           bubbles := shown ++ [(BotBubble, reply response)];
           alerts := alerts w |}
    | (Rejected _, c) =>
        {| api := c; userInfo := userInfo w;
           formSubmitted := formSubmitted w; isWaitingForResponse := false;
           savedUserInfo := savedUserInfo w; shownErrors := shownErrors w;
           bubbles := shown ++ [(BotBubble, apology)];
           alerts := alerts w |}
    end.

End Ui.

(** [formatTime]: the local hour and minute of a date. *)
Definition formatTime (R : EmailService.Runtime) (date : SessionModel.Time)
    : string :=
  let hours :=
    EmailService.padStart2
      (EmailService.showZ (EmailService.getHours R date)) in
  let minutes :=
    EmailService.padStart2
      (EmailService.showZ (EmailService.getMinutes R date)) in
  hours +:+ ":" +:+ minutes.

End ChatbotForm.

(** ** frontend/static/chat.js: where the reading loop returns *)

Module StreamConsumer.
Import Text Streaming.

(** Whether the loop of [handleStreamingChat] returns at an event: at the
    end-of-stream line, at an error with a message, at an event with
    [done: true]. *)
Definition returnsAt (e : StreamEvent) : bool :=
  match e with
  | EvSentinel => true
  | EvError err => negb (is_empty err)
  | EvStatus _ _ => false
  | EvData _ _ done _ => done
  end.

(** The first event at which the loop returns, if there is one. *)
Definition lastRead (events : list StreamEvent) : option StreamEvent :=
  List.find returnsAt events.

End StreamConsumer.

(** ** backend/scripts/migrate_userinfo_location.js *)

Module Migration.
Import Text SessionModel.

(** The [userInfo] of a stored document as the script reads it: the flat
    members [city] and [country] of the old layout and the [location]
    object of the new one.  The script touches no other member. *)
Record LegacyUserInfo := mkLegacy {
  flat_city : option string;
  flat_country : option string;
  nested : option Location
}.

Record LegacyDoc := mkLegacyDoc {
  doc_sessionId : string;
  doc_userInfo : option LegacyUserInfo
}.

(** [a || b] on values that are [undefined] or a string. *)
Definition firstTruthy (a b : option string) : option string :=
  if truthy a then a else b.

(** [ui.city || (ui.location && ui.location.city)], with [ui] the
    [userInfo] of the document or an empty object. *)
Definition cityOf (u : option LegacyUserInfo) : option string :=
  firstTruthy (u ≫= flat_city) ((u ≫= nested) ≫= SessionModel.city).

Definition countryOf (u : option LegacyUserInfo) : option string :=
  firstTruthy (u ≫= flat_country) ((u ≫= nested) ≫= SessionModel.country).

(** The filter of the cursor: a flat member exists, or [location] does
    not. *)
Definition selected (doc : LegacyDoc) : bool :=
  match doc_userInfo doc with
  | None => true
  | Some ui =>
      bool_decide (is_Some (flat_city ui))
      || bool_decide (is_Some (flat_country ui))
      || negb (bool_decide (is_Some (nested ui)))
  end.

(** The body of the loop for one document: the document as saved, and
    whether [updated] is incremented.  Reading [doc.userInfo.location] of a
    document without [userInfo] throws a [TypeError]. *)
Definition migrateDoc (doc : LegacyDoc) : Exn (LegacyDoc * bool) :=
  let city := cityOf (doc_userInfo doc) in
  let country := countryOf (doc_userInfo doc) in
  if truthy city || truthy country
  then
    let ui :=
      default {| flat_city := None; flat_country := None; nested := None |}
        (doc_userInfo doc) in
    let loc :=
      default {| SessionModel.city := None; SessionModel.country := None |}
        (nested ui) in
    let loc :=
      {| SessionModel.city :=
           if truthy city then city else SessionModel.city loc;
         SessionModel.country :=
           if truthy country then country else SessionModel.country loc |} in
    Return
      ({| doc_sessionId := doc_sessionId doc;
          doc_userInfo :=
            Some {| flat_city :=
                      if truthy (flat_city ui) then None else flat_city ui;
                    flat_country :=
                      if truthy (flat_country ui) then None
                      else flat_country ui;
                    nested := Some loc |} |}, true)
  else
    match doc_userInfo doc with
    | None => Throw "Cannot read properties of undefined (reading 'location')"
    | Some ui =>
        match nested ui with
        | None =>
            Return
              ({| doc_sessionId := doc_sessionId doc;
                  doc_userInfo :=
                    Some {| flat_city := flat_city ui;
                            flat_country := flat_country ui;
                            nested :=
                              Some {| SessionModel.city := None;
                                      SessionModel.country := None |} |} |},
               true)
        | Some _ => (Return (doc, false))
        end
    end.

(** The loop over the collection, in the order of the cursor, with the
    counter [updated]; an exception ends it and leaves the documents not
    yet visited as they are.  The result is the collection afterwards and
    the final count, or the error that was logged. *)
Fixpoint migrateFrom (docs : list LegacyDoc) (updated : nat)
    : list LegacyDoc * Exn nat :=
  match docs with
  | [] => ([], Return updated)
  | doc :: rest =>
      if selected doc
      then
        match migrateDoc doc with
        | Throw e => (doc :: rest, Throw e)
        | Return (doc', changed) =>
            let '(rest', r) :=
              migrateFrom rest (if changed then S updated else updated) in
            (doc' :: rest', r)
        end
      else
        let '(rest', r) := migrateFrom rest updated in
        (doc :: rest', r)
  end.

Definition run (docs : list LegacyDoc) : list LegacyDoc * Exn nat :=
  migrateFrom docs 0.

End Migration.

(** ** More sample data *)

Module Samples.
Import Text SessionModel.

(** A stand-in for [parseInt] that reads the texts made of decimal digits
    and nothing else. *)
Definition parseDecimal (s : string) : SessionQueries.Num :=
  Z.of_uint <$> NilZero.uint_of_string s.

Definition said (who : Sender) (txt : string) (at_ : Time) : Message :=
  {| sender := who; text := txt; timestamp := at_; metadata := None |}.

(** A conversation of five messages. *)
Definition talk : list Message :=
  [ said user "What is PPAP?" 2000%Z; said bot "PPAP is ..." 2001%Z;
    said user "And APQP?" 3000%Z; said bot "APQP is ..." 3001%Z;
    said user "Thanks" 4000%Z ].

Definition session5 : Session :=
  newSession 1000%Z "s-5" Fixtures.jane talk active.

Definition store5 : Store := {[ "s-5" := session5 ]}.

(** The collection with [session1] and [session5]. *)
Definition store2 : Store := <["s-5" := session5]> Fixtures.store1.

(** The skip of page [i] when the pages have two messages. *)
Definition skipOfPage (i : nat) : option string :=
  match i with
  | 0 => None
  | 1 => Some "2"
  | _ => Some "4"
  end.

(** A configured mail environment whose transport accepts every message. *)
Definition smtpUp : EmailService.Env :=
  {| EmailService.MAIL_USER := Some "bot@x.com";
     EmailService.MAIL_PASS := Some "secret";
     EmailService.MAIL_FROM := None;
     EmailService.ADMIN_EMAIL := Some "admin@x.com";
     EmailService.sendMail := fun _ => Return "<1@x.com>" |}.

(** A runtime whose clock shows a quarter past nine in the morning of the
    fifth of March 2025. *)
Definition runtime1 : EmailService.Runtime :=
  {| EmailService.getFullYear := fun _ => 2025%Z;
     EmailService.getMonth := fun _ => 2%Z;
     EmailService.getDate := fun _ => 5%Z;
     EmailService.getHours := fun _ => 9%Z;
     EmailService.getMinutes := fun _ => 15%Z;
     EmailService.JSON_stringify := fun _ => "{}" |}.

Definition answerBody (txt : string) (sid : option string)
    : ChatbotAPI.Body :=
  {| ChatbotAPI.body_error := None; ChatbotAPI.body_reply := Some txt;
     ChatbotAPI.body_response := None; ChatbotAPI.body_session_id := sid;
     ChatbotAPI.body_sources := None; ChatbotAPI.body_metadata := None;
     ChatbotAPI.body_email_sent := false |}.

(** A server that cannot be reached at the first request of the page and
    answers every later one. *)
Definition flaky : ChatbotAPI.Server :=
  fun n _ =>
    if n =? 0 then ChatbotAPI.NetworkError "Failed to fetch"
    else ChatbotAPI.Http 200 (Some (answerBody "PPAP is ..." None)).



(** The widget when the page has just been loaded. *)
Definition widget0 : ChatbotForm.Widget :=
  {| ChatbotForm.api := Fixtures.client0; ChatbotForm.userInfo := None;
     ChatbotForm.formSubmitted := false;
     ChatbotForm.isWaitingForResponse := false;
     ChatbotForm.savedUserInfo := None; ChatbotForm.shownErrors := [];
     ChatbotForm.bubbles := []; ChatbotForm.alerts := [] |}.

(** The streaming page before the first question. *)
Definition page0 : Streaming.Page :=
  {| Streaming.sessionId := None; Streaming.chatHistory := [];
     Streaming.messageElement := None; Streaming.accumulatedResponse := "";
     Streaming.errorsShown := []; Streaming.typing := false |}.

(** Documents in the old layout, in the new one, and one without
    [userInfo]. *)
Definition oldDoc : Migration.LegacyDoc :=
  {| Migration.doc_sessionId := "s-1";
     Migration.doc_userInfo :=
       Some {| Migration.flat_city := Some "Tunis";
               Migration.flat_country := Some "Tunisia";
               Migration.nested := None |} |}.

Definition newDoc : Migration.LegacyDoc :=
  {| Migration.doc_sessionId := "s-1";
     Migration.doc_userInfo :=
       Some {| Migration.flat_city := None; Migration.flat_country := None;
               Migration.nested :=
                 Some {| city := Some "Tunis";
                         country := Some "Tunisia" |} |} |}.

Definition bareDoc : Migration.LegacyDoc :=
  {| Migration.doc_sessionId := "s-2"; Migration.doc_userInfo := None |}.

End Samples.

(** * Properties *)

(** ** Facts about the collection *)

Section StoreFacts.
Import SessionModel.

Lemma findOne_Some sid (st : Store) s :
  findOne sid st = Some s <-> st !! sid = Some s /\ sessionId s = sid.
Proof.
  unfold findOne. destruct (st !! sid) as [s0|] eqn:E.
  - case_bool_decide; split.
    + intros [= ->]. auto.
    + intros [[= ->] _]. reflexivity.
    + discriminate.
    + intros [[= ->] H']. contradiction.
  - split; [discriminate | intros [[=] _]].
Qed.

Lemma findOneActive_Some sid (st : Store) s :
  findOneActive sid st = Some s
  <-> st !! sid = Some s /\ sessionId s = sid /\ status s = active.
Proof.
  unfold findOneActive. destruct (findOne sid st) as [s0|] eqn:E.
  - apply findOne_Some in E as [E1 E2].
    destruct (status s0) eqn:Es; simpl; split.
    + intros [= <-]. auto.
    + intros (H1 & _ & _). congruence.
    + discriminate.
    + intros (H1 & _ & H3). congruence.
    + discriminate.
    + intros (H1 & _ & H3). congruence.
  - split; [discriminate|]. intros (H1 & H2 & _).
    assert (findOne sid st = Some s) as H by (apply findOne_Some; auto).
    congruence.
Qed.

Lemma findOneActive_save_inactive sid (st : Store) s :
  sessionId s = sid -> status s <> active ->
  findOneActive sid (save s st) = None.
Proof.
  intros Hid Hst. unfold findOneActive, findOne, save.
  rewrite Hid, lookup_insert_eq. rewrite bool_decide_eq_true_2 by done.
  destruct (status s); simpl; congruence.
Qed.

End StoreFacts.

(** ** Ending a session *)

Section EndSession.
Import Text SessionModel SessionController.
Context (V : Virtuals).

Lemma endSession_not_active sid now (st : Store) :
  findOneActive sid st = None ->
  endSession V now sid st = (Failure 404 "Active session not found", st).
Proof. intros H. unfold endSession. rewrite H. reflexivity. Qed.

Lemma endRepeatedly_not_active sid nows (st : Store) :
  findOneActive sid st = None ->
  endRepeatedly V sid nows st
  = (replicate (length nows) (Failure 404 "Active session not found"), st).
Proof.
  intros H. unfold endRepeatedly.
  enough (forall pre,
    foldl (fun acc now =>
             let '(r, st') := endSession V now sid acc.2 in
             (acc.1 ++ [r], st')) (pre, st) nows
    = (pre ++ replicate (length nows)
                (Failure 404 "Active session not found"), st)) as G
    by apply (G []).
  induction nows as [|now nows IH]; intros pre; simpl.
  - rewrite app_nil_r. reflexivity.
  - rewrite (endSession_not_active _ _ _ H). rewrite IH.
    rewrite <- app_assoc. reflexivity.
Qed.

Lemma endSession_active sid now (st : Store) s :
  findOneActive sid st = Some s ->
  endSession V now sid st
  = (Success 200
       (SessionEnded sid ended (Some now)
          (duration V (endSessionDoc now s))
          (messageCount V (endSessionDoc now s))),
     <[sid := endSessionDoc now s]> st).
Proof.
  intros H. pose proof H as H0.
  apply findOneActive_Some in H0 as (_ & Hid & _).
  unfold endSession. rewrite H. unfold save. simpl. rewrite Hid. reflexivity.
Qed.

(** C3. For a session that is active, the first [endSession] request
    answers 200, leaves the session with status [ended] and
    [endedAt = now] and touches no other session; every later
    [endSession] request for it, at whatever time, is answered 404
    (not found) and leaves the store as it was. *)
Theorem endSession_once_then_not_found sid now (st : Store) s :
  findOneActive sid st = Some s ->
  exists r st1 s1,
    endSession V now sid st = (r, st1)
    /\ (exists dur count,
          r = Success 200 (SessionEnded sid ended (Some now) dur count))
    /\ st1 !! sid = Some s1
    /\ status s1 = ended /\ endedAt s1 = Some now
    /\ messages s1 = messages s /\ lastActivity s1 = lastActivity s
    /\ (forall other, other <> sid -> st1 !! other = st !! other)
    /\ forall nows,
         endRepeatedly V sid nows st1
         = (replicate (length nows)
              (Failure 404 "Active session not found"), st1)
         /\ Forall (fun r' => errorKind r' = Some NotFoundError)
              (endRepeatedly V sid nows st1).1.
Proof.
  intros H. pose proof H as H0.
  apply findOneActive_Some in H0 as (Hl & Hid & Hact).
  exists (Success 200
            (SessionEnded sid ended (Some now)
               (duration V (endSessionDoc now s))
               (messageCount V (endSessionDoc now s)))),
         (save (endSessionDoc now s) st), (endSessionDoc now s).
  split; [rewrite (endSession_active _ _ _ _ H); unfold save; simpl;
          rewrite Hid; reflexivity|].
  split; [eauto|].
  split; [unfold save; simpl; rewrite Hid; apply lookup_insert_eq|].
  repeat (split; [reflexivity|]).
  split.
  - intros other Hne. unfold save. simpl. rewrite Hid.
    apply lookup_insert_ne. congruence.
  - intros nows.
    assert (findOneActive sid (save (endSessionDoc now s) st) = None) as Hn
      by (apply findOneActive_save_inactive; [exact Hid | discriminate]).
    rewrite (endRepeatedly_not_active _ nows _ Hn). split; [reflexivity|].
    simpl. apply Forall_replicate. reflexivity.
Qed.

End EndSession.

Lemma endSession_once_then_not_found_witness :
  SessionModel.findOneActive "s-1" Fixtures.store1 = Some Fixtures.session1
  /\ exists r st1 s1,
       SessionController.endSession Fixtures.virtuals 2000%Z "s-1" Fixtures.store1
       = (r, st1)
       /\ st1 !! "s-1" = Some s1
       /\ SessionModel.status s1 = SessionModel.ended.
Proof.
  split; [vm_compute; reflexivity|].
  destruct (endSession_once_then_not_found Fixtures.virtuals "s-1" 2000%Z
              Fixtures.store1 Fixtures.session1)
    as (r & st1 & s1 & H1 & _ & H3 & H4 & _).
  - vm_compute. reflexivity.
  - exists r, st1, s1. auto.
Defined.

(** ** Appending a message and touching the activity time *)

Section AppendAndTouch.
Import Text SessionModel SessionController.
Context (V : Virtuals).

Lemma lookup_save_same sid (st : Store) s :
  sessionId s = sid -> save s st !! sid = Some s.
Proof. intros <-. apply lookup_insert_eq. Qed.

Lemma lookup_save_other sid other (st : Store) s :
  sessionId s = sid -> other <> sid -> save s st !! other = st !! other.
Proof. intros <- Hne. apply lookup_insert_ne. congruence. Qed.


End AppendAndTouch.



(** ** Creating a session *)

Section CreateSession.
Import Text SessionModel SessionController SessionRoutes.
Variable isEmail : string -> bool.


Lemma not_blank_truthy_trim v :
  blank v = false -> truthy (Some (trim v)) = true.
Proof. unfold blank, truthy. intros ->. reflexivity. Qed.




End CreateSession.


(** ** The life of a session *)

Section LifecycleInvariants.
Import Text SessionModel SessionController Lifecycle.
Context (V : Virtuals).













End LifecycleInvariants.


(** ** Concurrent appends *)

Section ConcurrentAppends.
Import Text SessionModel SessionController Concurrency.








Lemma schedule1_middle sid now (st : Store) done h rest :
  schedule1 sid (length done, now) (st, done ++ h :: rest)
  = ((advance now sid h st).2, done ++ (advance now sid h st).1 :: rest).
Proof.
  unfold schedule1. simpl. rewrite list_lookup_middle by reflexivity.
  destruct (advance now sid h st) as [h' st']. simpl. f_equal.
  replace (length done) with (length done + 0) by lia.
  rewrite insert_app_r. reflexivity.
Qed.

(** A handler answers within four stretches, whatever the collection. *)
Lemma four_stretches sid r (st : Store) now done rest :
  exists st' code,
    runSchedule sid
      [(length done, now); (length done, now); (length done, now);
       (length done, now)]
      (st, done ++ Pending r :: rest)
    = (st', done ++ Answered code :: rest).
Proof.
  unfold runSchedule. simpl. rewrite schedule1_middle. simpl.
  destruct (accepted r) eqn:Hacc.
  - destruct (findOneActive sid st) as [doc|] eqn:Hf; simpl.
    + rewrite schedule1_middle.
      unfold appends. rewrite Hacc.
      destruct r as [txt|txt md|u b md]; simpl;
        rewrite !schedule1_middle; simpl; eauto.
    + rewrite !schedule1_middle. simpl. eauto.
  - rewrite !schedule1_middle. simpl. eauto.
Qed.

Lemma sequential_from sid now reqs : forall done (st : Store),
  forallb answered done = true ->
  allAnswered
    (runSchedule sid
       (flat_map (fun i => [(i, now); (i, now); (i, now); (i, now)])
          (seq (length done) (length reqs)))
       (st, done ++ map Pending reqs)) = true.
Proof.
  induction reqs as [|r reqs IH]; intros done st Hdone.
  - simpl. unfold allAnswered. simpl. rewrite app_nil_r. exact Hdone.
  - cbn [length seq flat_map map]. unfold runSchedule.
    rewrite foldl_app. fold (runSchedule sid).
    destruct (four_stretches sid r st now done (map Pending reqs))
      as (st' & code & E).
    unfold runSchedule in E at 1. rewrite E.
    replace (done ++ Answered code :: map Pending reqs)
      with ((done ++ [Answered code]) ++ map Pending reqs)
      by (rewrite <- app_assoc; reflexivity).
    replace (S (length done)) with (length (done ++ [Answered code]))
      by (rewrite length_app; simpl; lia).
    apply IH. rewrite forallb_app, Hdone. reflexivity.
Qed.

(** The handlers always can all answer: run one after the other, they do,
    from any collection. *)
Lemma sequential_completes sid now reqs (st : Store) :
  allAnswered
    (runSchedule sid (sequential (length reqs) now) (st, map Pending reqs))
  = true.
Proof. apply (sequential_from sid now reqs [] st). reflexivity. Qed.

(** A handler that runs alone leaves the collection as the controller
    function does. *)
Lemma handler_alone_is_the_controller (V : Virtuals) sid now1 now2
    (st : Store) :
  (forall txt,
     (runSchedule sid [(0, now1); (0, now1); (0, now1)]
        (st, [Pending (UserMessage txt)])).1
     = (addUserMessage V now1 sid txt st).2)
  /\ (forall txt md,
        (runSchedule sid [(0, now1); (0, now1); (0, now1)]
           (st, [Pending (BotMessage txt md)])).1
        = (addBotMessage V now1 sid txt md st).2)
  /\ (forall u b md,
        (runSchedule sid [(0, now1); (0, now1); (0, now2); (0, now2)]
           (st, [Pending (ChatInteraction u b md)])).1
        = (addChatInteraction V now1 now2 sid u b md st).2).
Proof.
  split; [|split].
  - intros txt. unfold runSchedule, schedule1, addUserMessage. simpl.
    destruct (missingText txt) eqn:Hm; simpl; [reflexivity|].
    destruct (findOneActive sid st) as [s|] eqn:Hf; simpl; [|reflexivity].
    unfold appends. simpl. rewrite Hm. simpl.
    apply findOneActive_Some in Hf as (Hl & Hid & _).
    unfold atomicAppend, save. simpl. rewrite alter_alt, Hl, Hid.
    destruct txt; reflexivity.
  - intros txt md. unfold runSchedule, schedule1, addBotMessage. simpl.
    destruct (missingText txt) eqn:Hm; simpl; [reflexivity|].
    destruct (findOneActive sid st) as [s|] eqn:Hf; simpl; [|reflexivity].
    unfold appends. simpl. rewrite Hm. simpl.
    apply findOneActive_Some in Hf as (Hl & Hid & _).
    unfold atomicAppend, save. simpl. rewrite alter_alt, Hl, Hid.
    destruct txt; reflexivity.
  - intros u b md. unfold runSchedule, schedule1, addChatInteraction. simpl.
    destruct (truthy u && truthy b) eqn:Hm; simpl.
    + apply andb_true_iff in Hm as [Hu Hb]. rewrite Hu, Hb. simpl.
      destruct (findOneActive sid st) as [s|] eqn:Hf; simpl; [|reflexivity].
      unfold appends. simpl. rewrite Hu, Hb. simpl.
      apply findOneActive_Some in Hf as (Hl & Hid & _).
      unfold atomicAppend, save. simpl.
      rewrite (alter_alt _ st), Hl, alter_insert_eq, Hid. simpl.
      rewrite insert_insert_eq. reflexivity.
    + replace (negb (truthy u) || negb (truthy b)) with true
        by (destruct (truthy u), (truthy b); simpl in *; congruence).
      reflexivity.
Qed.

End ConcurrentAppends.


(** ** Facts about strings *)

Section StringFacts.
Import Text.

Lemma append_empty_r s : s +:+ "" = s.
Proof.
  induction s as [|c s IH]; [reflexivity|].
  change (String c (s +:+ "") = String c s). f_equal. exact IH.
Qed.

Lemma append_assoc_s s1 s2 s3 : (s1 +:+ s2) +:+ s3 = s1 +:+ (s2 +:+ s3).
Proof.
  induction s1 as [|c s1 IH]; [reflexivity|].
  change (String c ((s1 +:+ s2) +:+ s3) = String c (s1 +:+ (s2 +:+ s3))).
  f_equal. exact IH.
Qed.


Lemma append_is_empty a b : is_empty (a +:+ b) = true -> a = "" /\ b = "".
Proof.
  destruct a as [|c a]; simpl; [|discriminate].
  destruct b; [auto | discriminate].
Qed.

End StringFacts.

(** ** The event stream *)

Section StreamShape.
Import Text SessionModel Streaming.






(** The page that consumes a completed stream records the full reply. *)
Lemma consume_chunkEvents message frags : forall sofar (p : Page),
  accumulatedResponse p = sofar ->
  forall rest,
    consume message (chunkEvents sofar frags ++ rest) p
    = consume message rest
        (fold_left (fun q e => (onEvent message e q).1)
           (chunkEvents sofar frags) p)
    /\ accumulatedResponse
         (fold_left (fun q e => (onEvent message e q).1)
            (chunkEvents sofar frags) p)
       = sofar +:+ concatAll frags
    /\ chatHistory
         (fold_left (fun q e => (onEvent message e q).1)
            (chunkEvents sofar frags) p)
       = chatHistory p.
Proof.
  induction frags as [|f frags IH]; intros sofar p Hp rest.
  - simpl. rewrite append_empty_r. auto.
  - cbn [chunkEvents app consume fold_left].
    set (p1 := (onEvent message (EvData f (sofar +:+ f) false None) p).1).
    assert (onEvent message (EvData f (sofar +:+ f) false None) p
            = (p1, false)) as E by reflexivity.
    rewrite E.
    assert (accumulatedResponse p1 = sofar +:+ f) as Hp1.
    { subst p1. simpl. destruct (is_empty (sofar +:+ f)) eqn:He;
        [|reflexivity].
      apply append_is_empty in He as [-> ->]. exact Hp. }
    assert (chatHistory p1 = chatHistory p) as Hh by reflexivity.
    destruct (IH (sofar +:+ f) p1 Hp1 rest) as (A & B & C).
    rewrite A, B, C, Hh. simpl. rewrite append_assoc_s. auto.
Qed.

Lemma completed_stream_is_recorded sentinelAfterError session_id g md message
    (p : Page) :
  ending g = Completed md ->
  chatHistory
    (handleStreamingChat message (stream sentinelAfterError session_id g) p)
  = chatHistory p ++ [("user", message); ("assistant", fullText g)].
Proof.
  intros Hc. unfold handleStreamingChat, stream. rewrite Hc.
  cbn [app consume onEvent]. cbn [chatHistory].
  match goal with
  | |- context [consume message (chunkEvents "" ?fr ++ ?rest) ?q] =>
      destruct (consume_chunkEvents message fr "" q eq_refl rest)
        as (A & B & C)
  end.
  rewrite A. cbn [consume onEvent].
  match goal with
  | |- context [fold_left ?f ?l ?q] => set (p2 := fold_left f l q) in *
  end.
  simpl in B. cbn [chatHistory accumulatedResponse].
  rewrite C. cbn [chatHistory]. rewrite B. unfold fullText.
  destruct (is_empty (concatAll (fragments g))) eqn:He; [|reflexivity].
  destruct (concatAll (fragments g)); [reflexivity | discriminate He].
Qed.

End StreamShape.



(** ** The response coordinator *)

Section Coordinator.
Import Text ResponseCoordinator.



End Coordinator.


(** ** The retry wrapper of the chat client *)

Section Retry.
Import Text ChatbotAPI.
Variable server : Server.





End Retry.



(** ** The HTML summary *)

Section HtmlSummary.
Import Text SessionModel EmailService.
Context (R : Runtime).

Lemma concat_cons sep x (l : list string) :
  l <> [] -> String.concat sep (x :: l) = x +:+ sep +:+ String.concat sep l.
Proof. destruct l; [congruence | reflexivity]. Qed.

Lemma concat_middle sep (l1 l2 : list string) e :
  l1 <> [] -> l2 <> [] ->
  String.concat sep (l1 ++ e :: l2)
  = String.concat sep l1 +:+ sep +:+ e +:+ sep +:+ String.concat sep l2.
Proof.
  intros H1 H2. induction l1 as [|x l1 IH]; [congruence|].
  destruct l1 as [|y l1].
  - simpl app. rewrite concat_cons by discriminate.
    rewrite concat_cons by exact H2. reflexivity.
  - change ((x :: y :: l1) ++ e :: l2) with (x :: ((y :: l1) ++ e :: l2)).
    rewrite concat_cons by discriminate. rewrite IH by discriminate.
    rewrite (concat_cons sep x (y :: l1)) by discriminate.
    rewrite !append_assoc_s. reflexivity.
Qed.

Lemma concat_last sep (l1 : list string) e :
  l1 <> [] ->
  String.concat sep (l1 ++ [e]) = String.concat sep l1 +:+ sep +:+ e.
Proof.
  intros H1. induction l1 as [|x l1 IH]; [congruence|].
  destruct l1 as [|y l1]; [reflexivity|].
  change ((x :: y :: l1) ++ [e]) with (x :: ((y :: l1) ++ [e])).
  rewrite concat_cons by discriminate. rewrite IH by discriminate.
  rewrite (concat_cons sep x (y :: l1)) by discriminate.
  rewrite !append_assoc_s. reflexivity.
Qed.

Lemma delimiters_app a b : delimiters (a +:+ b) = delimiters a +:+ delimiters b.
Proof.
  induction a as [|c a IH]; [reflexivity|].
  change (delimiters (String c (a +:+ b))
          = delimiters (String c a) +:+ delimiters b).
  simpl. rewrite IH. destruct (isDelimiter c); reflexivity.
Qed.

Lemma escapeHtml_app a b : escapeHtml (a +:+ b) = escapeHtml a +:+ escapeHtml b.
Proof.
  induction a as [|c a IH]; [reflexivity|].
  change (escapeHtml (String c (a +:+ b))
          = escapeHtml (String c a) +:+ escapeHtml b).
  simpl. rewrite IH. destruct (entity c).
  - rewrite append_assoc_s. reflexivity.
  - reflexivity.
Qed.

Lemma delimiters_entity c :
  match entity c with
  | Some e => delimiters e = ""
  | None => isDelimiter c = false
  end.
Proof.
  unfold entity, isDelimiter.
  destruct (nat_of_ascii c =? 38) eqn:E1; [reflexivity|].
  destruct (nat_of_ascii c =? 60) eqn:E2; [reflexivity|].
  destruct (nat_of_ascii c =? 62) eqn:E3; [reflexivity|].
  destruct (nat_of_ascii c =? 34) eqn:E4; [reflexivity|].
  destruct (nat_of_ascii c =? 39) eqn:E5; reflexivity.
Qed.

Lemma delimiters_escapeHtml s : delimiters (escapeHtml s) = "".
Proof.
  induction s as [|c s IH]; [reflexivity|]. simpl.
  pose proof (delimiters_entity c) as H. destruct (entity c) as [e|].
  - rewrite delimiters_app, H, IH. reflexivity.
  - simpl. rewrite H. exact IH.
Qed.

Lemma escapeHtml_other c s :
  ~ In c specials -> escapeHtml (String c s) = String c (escapeHtml s).
Proof.
  intros H. simpl. unfold entity.
  destruct (nat_of_ascii c =? 38) eqn:E1;
    [apply Nat.eqb_eq in E1; exfalso; apply H;
     rewrite <- (ascii_nat_embedding c), E1; simpl; tauto|].
  destruct (nat_of_ascii c =? 60) eqn:E2;
    [apply Nat.eqb_eq in E2; exfalso; apply H;
     rewrite <- (ascii_nat_embedding c), E2; simpl; tauto|].
  destruct (nat_of_ascii c =? 62) eqn:E3;
    [apply Nat.eqb_eq in E3; exfalso; apply H;
     rewrite <- (ascii_nat_embedding c), E3; simpl; tauto|].
  destruct (nat_of_ascii c =? 34) eqn:E4;
    [apply Nat.eqb_eq in E4; exfalso; apply H;
     rewrite <- (ascii_nat_embedding c), E4; simpl; tauto|].
  destruct (nat_of_ascii c =? 39) eqn:E5;
    [apply Nat.eqb_eq in E5; exfalso; apply H;
     rewrite <- (ascii_nat_embedding c), E5; simpl; tauto|].
  reflexivity.
Qed.

(** The block of a message is a fixed frame around its escaped text. *)
Lemma messageHtml_frames_text msg :
  exists pre post, forall txt,
    messageHtml R (withText txt msg) = pre +:+ escapeHtml txt +:+ post.
Proof.
  set (senderClass := if is_user (sender msg) then "user" else "bot").
  set (senderLabel := if is_user (sender msg) then "User" else "Bot").
  set (time := formatTimestamp R (timestamp msg)).
  exists (String.concat nl
            (firstn 6 (messageLines senderClass senderLabel time ""))
          +:+ nl +:+ "        <div class=" +:+ dq +:+ "message-text" +:+ dq
          +:+ ">"),
         ("</div>" +:+ nl +:+ "      "
          +:+ match shownMetadata msg with
              | Some md =>
                  String.concat nl
                    (metadataLines (escapeHtml (JSON_stringify R md)))
              | None => ""
              end
          +:+ "</div>").
  intros txt. unfold messageHtml. cbn [sender timestamp text withText].
  fold senderClass senderLabel time.
  change (shownMetadata (withText txt msg)) with (shownMetadata msg).
  change (messageLines senderClass senderLabel time (escapeHtml txt))
    with (firstn 6 (messageLines senderClass senderLabel time "")
          ++ ("        <div class=" +:+ dq +:+ "message-text" +:+ dq +:+ ">"
              +:+ escapeHtml txt +:+ "</div>")
          :: ["      "]).
  rewrite concat_middle by discriminate.
  cbn [String.concat]. rewrite !append_assoc_s. reflexivity.
Qed.

(** The block of a message whose metadata is shown is a fixed frame around
    the escaped rendering of the metadata. *)
Lemma messageHtml_frames_metadata msg :
  exists pre post, forall f fs,
    messageHtml R (withMetadata (Some (f :: fs)) msg)
    = pre +:+ escapeHtml (JSON_stringify R (f :: fs)) +:+ post.
Proof.
  set (senderClass := if is_user (sender msg) then "user" else "bot").
  set (senderLabel := if is_user (sender msg) then "User" else "Bot").
  set (time := formatTimestamp R (timestamp msg)).
  exists (String.concat nl
            (messageLines senderClass senderLabel time
               (escapeHtml (text msg)))
          +:+ String.concat nl (firstn 2 (metadataLines ""))
          +:+ nl +:+ "          <strong>Metadata:</strong> "),
         (nl +:+ String.concat nl (skipn 3 (metadataLines ""))
          +:+ "</div>").
  intros f fs. unfold messageHtml.
  cbn [sender timestamp text withMetadata shownMetadata metadata].
  fold senderClass senderLabel time.
  change (metadataLines (escapeHtml (JSON_stringify R (f :: fs))))
    with (firstn 2 (metadataLines "")
          ++ ("          <strong>Metadata:</strong> "
              +:+ escapeHtml (JSON_stringify R (f :: fs)))
          :: skipn 3 (metadataLines "")).
  rewrite concat_middle by discriminate.
  rewrite !append_assoc_s. reflexivity.
Qed.

Lemma messageHtml_delimiters m1 m2 :
  sameButContent m1 m2 ->
  delimiters (messageHtml R m1) = delimiters (messageHtml R m2).
Proof.
  intros (Hs & Ht & Hmd). unfold messageHtml. rewrite Hs, Ht.
  cbv zeta. unfold messageLines. cbn [String.concat].
  rewrite !delimiters_app, !delimiters_escapeHtml.
  destruct (shownMetadata m1) as [md1|] eqn:E1;
    destruct (shownMetadata m2) as [md2|] eqn:E2.
  - unfold metadataLines. cbn [String.concat].
    rewrite !delimiters_app, !delimiters_escapeHtml. reflexivity.
  - destruct Hmd as [_ Hmd]. discriminate (Hmd eq_refl).
  - destruct Hmd as [Hmd _]. discriminate (Hmd eq_refl).
  - reflexivity.
Qed.

Lemma transcriptHtml_delimiters msgs1 msgs2 :
  Forall2 sameButContent msgs1 msgs2 ->
  delimiters (transcriptHtml R msgs1) = delimiters (transcriptHtml R msgs2).
Proof.
  intros H. destruct H as [|m1 m2 l1 l2 Hm Hl]; [reflexivity|].
  unfold transcriptHtml.
  assert (forall a b, Forall2 sameButContent a b ->
            delimiters (concatAll (map (messageHtml R) a))
            = delimiters (concatAll (map (messageHtml R) b))) as G.
  { induction 1 as [|x y a b Hxy _ IH]; [reflexivity|].
    change (delimiters (messageHtml R x
                        +:+ concatAll (map (messageHtml R) a))
            = delimiters (messageHtml R y
                          +:+ concatAll (map (messageHtml R) b))).
    rewrite !delimiters_app, IH, (messageHtml_delimiters x y Hxy).
    reflexivity. }
  apply G. constructor; assumption.
Qed.

(** C10. [escapeHtml] replaces each of the five characters [&], [<], [>],
    the double quote and ['] by its entity, wherever it occurs, and keeps
    every other character; its result has no [<], [>] or quote of either
    kind. In the summary, the block of a message is a fixed frame around the
    escaped text, and around the escaped rendering of the metadata when
    there is one to show; so two transcripts that differ only in what the
    messages say give documents with the same sequence of tag and attribute
    delimiters. The full name of the user, on the contrary, is put into the
    document as it is. *)
Theorem summary_escapes_message_content now :
  (escapeHtml "&" = "&amp;" /\ escapeHtml "<" = "&lt;"
   /\ escapeHtml ">" = "&gt;" /\ escapeHtml dq = "&quot;"
   /\ escapeHtml "'" = "&#039;")
  /\ (forall c s, ~ In c specials ->
        escapeHtml (String c s) = String c (escapeHtml s))
  /\ (forall a b, escapeHtml (a +:+ b) = escapeHtml a +:+ escapeHtml b)
  /\ (forall s, delimiters (escapeHtml s) = "")
  /\ (forall session,
        buildHtmlSummary R now session
        = htmlHead (sessionId session)
            (formatTimestamp R (createdAt session))
            (formatTimestamp R (endTimeOf now session))
            (calculateDuration (createdAt session) (endTimeOf now session))
            (statusName (status session))
            (toUpperCase (statusName (status session)))
            (showZ (Z.of_nat (length (messages session))))
            (fullName (userInfo session)) (email (userInfo session))
            (companyName (userInfo session))
            (supplierType (userInfo session))
          +:+ match messages session with
              | [] => noMessagesHtml
              | msgs => concatAll (map (messageHtml R) msgs)
              end
          +:+ htmlFoot R now)
  /\ (forall msg, exists pre post, forall txt,
        messageHtml R (withText txt msg) = pre +:+ escapeHtml txt +:+ post)
  /\ (forall msg, exists pre post, forall f fs,
        messageHtml R (withMetadata (Some (f :: fs)) msg)
        = pre +:+ escapeHtml (JSON_stringify R (f :: fs)) +:+ post)
  /\ (forall session msgs,
        Forall2 sameButContent (messages session) msgs ->
        delimiters (buildHtmlSummary R now (withMessages msgs session))
        = delimiters (buildHtmlSummary R now session))
  /\ (forall session, exists pre post, forall fn,
        buildHtmlSummary R now (withFullName fn session)
        = pre +:+ fn +:+ post).
Proof.
  split; [repeat split; reflexivity|].
  split; [exact escapeHtml_other|].
  split; [exact escapeHtml_app|].
  split; [exact delimiters_escapeHtml|].
  split; [intros session; unfold buildHtmlSummary, transcriptHtml;
          destruct (messages session); reflexivity|].
  split; [exact messageHtml_frames_text|].
  split; [exact messageHtml_frames_metadata|].
  split.
  - intros session msgs H. unfold buildHtmlSummary.
    cbn [withMessages sessionId createdAt status userInfo messages updatedAt].
    replace (endTimeOf now (withMessages msgs session))
      with (endTimeOf now session) by reflexivity.
    rewrite <- (Forall2_length _ _ _ H).
    rewrite !delimiters_app.
    rewrite (transcriptHtml_delimiters _ _ H). reflexivity.
  - intros session.
    set (before :=
           firstn 149
             (headLines (sessionId session)
                (formatTimestamp R (createdAt session))
                (formatTimestamp R (endTimeOf now session))
                (calculateDuration (createdAt session)
                   (endTimeOf now session))
                (statusName (status session))
                (toUpperCase (statusName (status session)))
                (showZ (Z.of_nat (length (messages session))))
                "" (email (userInfo session))
                (companyName (userInfo session))
                (supplierType (userInfo session)))).
    set (after :=
           skipn 150
             (headLines (sessionId session)
                (formatTimestamp R (createdAt session))
                (formatTimestamp R (endTimeOf now session))
                (calculateDuration (createdAt session)
                   (endTimeOf now session))
                (statusName (status session))
                (toUpperCase (statusName (status session)))
                (showZ (Z.of_nat (length (messages session))))
                "" (email (userInfo session))
                (companyName (userInfo session))
                (supplierType (userInfo session)))).
    exists (String.concat nl before +:+ nl
            +:+ "        <div class=" +:+ dq +:+ "info-value" +:+ dq +:+ ">"),
           ("</div>" +:+ nl +:+ String.concat nl after
            +:+ transcriptHtml R (messages session) +:+ htmlFoot R now).
    intros fn. unfold buildHtmlSummary, htmlHead.
    cbn [withFullName sessionId createdAt status userInfo messages updatedAt
         fullName email companyName supplierType].
    replace (endTimeOf now (withFullName fn session))
      with (endTimeOf now session) by reflexivity.
    match goal with
    | |- String.concat nl ?l +:+ _ +:+ _ = _ =>
        change l
          with (before
                ++ ("        <div class=" +:+ dq +:+ "info-value" +:+ dq
                    +:+ ">" +:+ fn +:+ "</div>") :: after)
    end.
    rewrite concat_middle by discriminate.
    rewrite !append_assoc_s. reflexivity.
Qed.

End HtmlSummary.

Lemma summary_escapes_message_content_witness :
  Forall2 EmailService.sameButContent
    (SessionModel.messages Fixtures.session2) [Fixtures.scriptMessage]
  /\ EmailService.delimiters
       (EmailService.buildHtmlSummary Fixtures.runtime0 9000%Z
          (EmailService.withMessages [Fixtures.scriptMessage]
             Fixtures.session2))
     = EmailService.delimiters
         (EmailService.buildHtmlSummary Fixtures.runtime0 9000%Z
            Fixtures.session2).
Proof.
  assert (Forall2 EmailService.sameButContent
            (SessionModel.messages Fixtures.session2)
            [Fixtures.scriptMessage]) as H.
  { repeat constructor; simpl; auto. }
  split; [exact H|].
  destruct (summary_escapes_message_content Fixtures.runtime0 9000%Z)
    as (_ & _ & _ & _ & _ & _ & _ & G & _).
  exact (G Fixtures.session2 [Fixtures.scriptMessage] H).
Defined.

(** ** The summary e-mail and the state of the session *)

Section Notification.
Import Text SessionModel EmailService SessionController Lifecycle.
Context (V : Virtuals) (R : Runtime).




End Notification.


(** ** Sample evaluations *)

Example trim_sample : Text.trim "  What is PPAP?  " = "What is PPAP?".
Proof. reflexivity. Qed.

Example blank_sample : Text.blank "   " = true.
Proof. reflexivity. Qed.

Example escapeHtml_sample :
  EmailService.escapeHtml "<a href='x'>Tom & Jerry</a>"
  = "&lt;a href=&#039;x&#039;&gt;Tom &amp; Jerry&lt;/a&gt;".
Proof. reflexivity. Qed.

Example calculateDuration_minutes :
  EmailService.calculateDuration 0%Z 1980000%Z = "33 minutes".
Proof. reflexivity. Qed.

Example calculateDuration_hours :
  EmailService.calculateDuration 0%Z 4500000%Z = "1 hour 15 minutes".
Proof. reflexivity. Qed.

Example formatTimestamp_sample :
  EmailService.formatTimestamp Fixtures.runtime0 0%Z = "2025-01-01 00:00".
Proof. reflexivity. Qed.

(** The stream of the API documentation. *)
Example stream_sample :
  Streaming.stream false "abc123"
    {| Streaming.fragments := ["PPAP submission"; " levels are"];
       Streaming.ending := Streaming.Completed [] |}
  = [ Streaming.EvStatus "retrieving" "abc123";
      Streaming.EvStatus "generating" "abc123";
      Streaming.EvData "PPAP submission" "PPAP submission" false None;
      Streaming.EvData " levels are" "PPAP submission levels are" false None;
      Streaming.EvData "" "PPAP submission levels are" true (Some []);
      Streaming.EvSentinel ].
Proof. reflexivity. Qed.

(** Two firing processors that share a url, and one that raises. *)
Example unifiedLinks_sample :
  map ResponseCoordinator.label
    (ResponseCoordinator.unifiedLinks
       (ResponseCoordinator.firing "APQP and PPAP submission" "both?"
          [Fixtures.apqp; Fixtures.broken; Fixtures.ppap]))
  = ["APQP Quick Access Guide"; "Supplier Quality Handbook";
     "PPAP Submission Guide"].
Proof. vm_compute. reflexivity. Qed.

Example augment_no_processor :
  ResponseCoordinator.augment "PPAP is ..." "What is PPAP?" [] = "PPAP is ...".
Proof. reflexivity. Qed.

(** A request answered with 404 three times: three calls, three requests,
    sleeps of one and two seconds, and the error of the answer. *)
Example retry_sample :
  ChatbotAPI.sendMessageWithRetry Fixtures.alwaysNotFound
    ChatbotAPI.API_CONFIG_retry "What is PPAP?" [] Fixtures.client0
  = (ChatbotAPI.Rejected (Some "Active session not found"),
     {| ChatbotAPI.sessionId := "s-1"; ChatbotAPI.storage := Some "s-1";
        ChatbotAPI.calls := 3; ChatbotAPI.fetches := 3;
        ChatbotAPI.slept := [2000%Z; 1000%Z] |}).
Proof. vm_compute. reflexivity. Qed.

(** The late message of [day1] is refused and the sweep finds nothing to
    expire: the session ends with its one message. *)
Example day1_sample :
  (fun s => (SessionModel.status s, length (SessionModel.messages s),
             SessionModel.lastActivity s, SessionModel.endedAt s))
    <$> (Lifecycle.run Fixtures.virtuals Fixtures.store1 Fixtures.day1
           !! "s-1")
  = Some (SessionModel.ended, 1, 3000%Z, Some 4000%Z).
Proof. vm_compute. reflexivity. Qed.

(** A sweep expires the session that has been idle for longer than the
    timeout and reports it once. *)
Example sweep_sample :
  (Lifecycle.sweepExpired 1000%Z 9000%Z Fixtures.store1).2 = ["s-1"]
  /\ SessionModel.status
       <$> ((Lifecycle.sweepExpired 1000%Z 9000%Z Fixtures.store1).1 !! "s-1")
     = Some SessionModel.expired.
Proof. split; vm_compute; reflexivity. Qed.

(** * Further properties of the code *)

(** ** Reading a session back *)

Section QueryFacts.
Import Text SessionModel SessionController SessionQueries.

Lemma slice_segment {A} (k n : nat) (l : list A) :
  slice (Some (Z.of_nat k)) (Some (Z.of_nat k + Z.of_nat n)%Z) l
  = take n (drop k l).
Proof.
  unfold slice, relativeIndex.
  destruct (Z.ltb_spec (Z.of_nat k) 0); [lia|].
  destruct (Z.ltb_spec (Z.of_nat k + Z.of_nat n) 0); [lia|].
  destruct (Nat.le_gt_cases (length l) k) as [Hk|Hk].
  - rewrite (drop_ge l k) by exact Hk.
    replace (Z.to_nat (Z.min (Z.of_nat k) (Z.of_nat (length l))))
      with (length l) by lia.
    rewrite drop_all, !take_nil. reflexivity.
  - replace (Z.to_nat (Z.min (Z.of_nat k) (Z.of_nat (length l)))) with k
      by lia.
    replace (Z.to_nat
               (Z.max
                  (Z.min (Z.of_nat k + Z.of_nat n) (Z.of_nat (length l))
                   - Z.min (Z.of_nat k) (Z.of_nat (length l))) 0))
      with (Nat.min n (length (drop k l)))
      by (rewrite length_drop; lia).
    destruct (Nat.le_gt_cases n (length (drop k l))) as [Hn|Hn].
    + rewrite Nat.min_l by exact Hn. reflexivity.
    + rewrite Nat.min_r by lia.
      rewrite !take_ge by lia. reflexivity.
Qed.

(** X1. [getMessages] with a skip and a limit that are not negative answers 200
    with the messages number [skip], [skip + 1], ... of the transcript, at
    most [limit] of them and fewer only where the transcript ends:
    [returned] is the smaller of [limit] and [total - skip]. The session is
    found whatever its status, and the store is not changed. *)
Theorem getMessages_page_is_segment parseInt sid limit skip (st : Store) s
    (k n : nat) :
  findOne sid st = Some s ->
  queryNumber parseInt skip 0 = Some (Z.of_nat k) ->
  queryNumber parseInt limit 100 = Some (Z.of_nat n) ->
  getMessages parseInt sid limit skip st
  = (Answered 200
       {| page_sessionId := sid;
          total := length (messages s);
          returned := Nat.min n (length (messages s) - k);
          page_messages := take n (drop k (messages s)) |},
     st).
Proof.
  intros Hs Hk Hn. unfold getMessages. rewrite Hs, Hk, Hn. cbn [plus].
  rewrite slice_segment, length_take, length_drop.
  apply findOne_Some in Hs as [_ ->]. reflexivity.
Qed.

Lemma pages_concat {A} (size : nat) (l : list A) (pages : nat) :
  concat (map (fun i => take size (drop (i * size) l)) (seq 0 pages))
  = take (pages * size) l.
Proof.
  induction pages as [|p IH]; [reflexivity|].
  rewrite seq_S, map_app, concat_app, IH. simpl.
  rewrite app_nil_r, take_take_drop. f_equal. lia.
Qed.

(** X2. Pages that follow one another cover the transcript: with a page size
    [size] and the skips [0], [size], [2 * size], ... the messages of the
    answers, put one after the other, are the messages of the session, each
    once and in order, as soon as the pages reach the end. *)
Theorem getMessages_pages_cover parseInt sid (st : Store) s
    (size pages : nat) (limit : option string)
    (skipOf : nat -> option string) :
  findOne sid st = Some s ->
  queryNumber parseInt limit 100 = Some (Z.of_nat size) ->
  (forall i, i < pages ->
     queryNumber parseInt (skipOf i) 0 = Some (Z.of_nat (i * size))) ->
  length (messages s) <= pages * size ->
  concat
    (map (fun i => pageOf (getMessages parseInt sid limit (skipOf i) st))
       (seq 0 pages))
  = messages s.
Proof.
  intros Hs Hl Hk Hlen.
  rewrite <- (take_ge (messages s) (pages * size)) by exact Hlen.
  rewrite <- pages_concat. f_equal.
  apply map_ext_in. intros i Hi. apply in_seq in Hi.
  unfold pageOf, getMessages. rewrite Hs, Hl, Hk by lia. cbn [fst plus].
  cbn [page_messages]. apply slice_segment.
Qed.

(** X3. A skip or a limit that [parseInt] cannot read does not make
    [getMessages] fail: the answer is 200 with an empty page, and [total]
    still counts the whole transcript. *)
Theorem getMessages_unreadable_number parseInt sid limit skip (st : Store) s :
  findOne sid st = Some s ->
  queryNumber parseInt skip 0 = None
  \/ queryNumber parseInt limit 100 = None ->
  getMessages parseInt sid limit skip st
  = (Answered 200
       {| page_sessionId := sid; total := length (messages s);
          returned := 0; page_messages := [] |},
     st).
Proof.
  intros Hs Hnan. unfold getMessages. rewrite Hs.
  apply findOne_Some in Hs as [_ ->].
  assert (slice (queryNumber parseInt skip 0)
            (plus (queryNumber parseInt skip 0)
               (queryNumber parseInt limit 100)) (messages s) = []) as ->;
    [|reflexivity].
  assert (plus (queryNumber parseInt skip 0)
            (queryNumber parseInt limit 100) = None) as ->.
  { destruct Hnan as [-> | ->]; [reflexivity|].
    destruct (queryNumber parseInt skip 0); reflexivity. }
  unfold slice. cbn [relativeIndex].
  replace (Z.to_nat
             (Z.max
                (0 - relativeIndex (Z.of_nat (length (messages s)))
                       (queryNumber parseInt skip 0)) 0)) with 0.
  - apply take_0.
  - unfold relativeIndex. destruct (queryNumber parseInt skip 0) as [k|];
      [|reflexivity].
    destruct (Z.ltb_spec k 0); lia.
Qed.

Lemma moreRecent_total : Total moreRecent.
Proof. intros a b. unfold moreRecent. lia. Qed.

Lemma moreRecent_trans : Transitive moreRecent.
Proof. intros a b c. unfold moreRecent. lia. Qed.

Lemma getActiveSessions_elem (st : Store) h :
  h ∈ data (getActiveSessions st).1
  <-> exists k s,
        st !! k = Some s /\ status s = active /\ h = withoutMessages s.
Proof.
  cbn [getActiveSessions fst data]. rewrite list_elem_of_fmap. split.
  - intros (s & -> & Hin). rewrite merge_sort_Permutation in Hin.
    apply list_elem_of_In, List.filter_In in Hin as [Hin Hact].
    apply list_elem_of_In, list_elem_of_fmap in Hin as ([k s'] & -> & Hin).
    apply elem_of_map_to_list in Hin. exists k, s'. split; [exact Hin|].
    split; [|reflexivity]. simpl in Hact. destruct (status s'); done.
  - intros (k & s & Hk & Hact & ->). exists s. split; [reflexivity|].
    rewrite merge_sort_Permutation.
    apply list_elem_of_In, List.filter_In. split.
    + apply list_elem_of_In, list_elem_of_fmap. exists (k, s).
      split; [reflexivity|]. apply elem_of_map_to_list. exact Hk.
    + rewrite Hact. reflexivity.
Qed.

Lemma getActiveSessions_sorted (st : Store) :
  StronglySorted (fun a b => (h_lastActivity b <= h_lastActivity a)%Z)
    (data (getActiveSessions st).1).
Proof.
  cbn [getActiveSessions fst data].
  apply (StronglySorted_fmap withoutMessages moreRecent).
  - intros x y Hxy. exact Hxy.
  - exact (@StronglySorted_merge_sort _ moreRecent _ moreRecent_trans
             moreRecent_total _).
Qed.

(** X4. [getActiveSessions] lists the sessions of the collection whose status
    is active, each once, without their messages, the one with the latest
    activity first; [count] is the number of sessions listed, and the store
    is not changed. *)
Theorem getActiveSessions_lists_active_recent_first (st : Store) :
  let r := (getActiveSessions st).1 in
  count r = length (data r)
  /\ data r
     ≡ₚ withoutMessages
        <$> List.filter (fun s => is_active (status s)) (map_to_list st).*2
  /\ (forall h,
        h ∈ data r
        <-> exists k s,
              st !! k = Some s /\ status s = active
              /\ h = withoutMessages s)
  /\ StronglySorted
       (fun a b => (h_lastActivity b <= h_lastActivity a)%Z) (data r)
  /\ (getActiveSessions st).2 = st.
Proof.
  split; [reflexivity|]. split.
  { cbn [getActiveSessions fst data]. rewrite merge_sort_Permutation.
    reflexivity. }
  split; [apply getActiveSessions_elem|]. split; [|reflexivity].
  apply getActiveSessions_sorted.
Qed.

(** X27. A keep-alive puts the session at the head of the list of active
    sessions: after [updateActivity] at a time later than the last
    activity of every other active session, the first entry that
    [getActiveSessions] returns is the session touched, with its new
    [lastActivity]. *)
Theorem keep_alive_moves_session_to_front now sid (st : Store) s :
  findOneActive sid st = Some s ->
  (forall k s',
     k <> sid -> st !! k = Some s' -> status s' = active ->
     (lastActivity s' < now)%Z) ->
  head (data (getActiveSessions (updateActivity now sid st).2).1)
  = Some (withoutMessages (setLastActivity now s)).
Proof.
  intros Hs Hothers. unfold updateActivity. rewrite Hs. cbn [snd].
  apply findOneActive_Some in Hs as (Hl & Hid & Hact).
  unfold save. cbn [sessionId setLastActivity]. rewrite Hid.
  set (s1 := setLastActivity now s).
  set (st1 := <[sid := s1]> st).
  assert (withoutMessages s1 ∈ data (getActiveSessions st1).1) as Hin.
  { apply getActiveSessions_elem. exists sid, s1.
    split; [apply lookup_insert_eq|]. split; [exact Hact | reflexivity]. }
  pose proof (getActiveSessions_sorted st1) as Hsorted.
  pose proof (getActiveSessions_elem st1) as Helem.
  destruct (data (getActiveSessions st1).1) as [|h0 rest];
    [inversion Hin|].
  cbn [head]. f_equal.
  destruct (proj1 (Helem h0) ltac:(left)) as (k & s0 & Hk & Hact0 & ->).
  destruct (decide (k = sid)) as [->|Hne].
  - unfold st1 in Hk. rewrite lookup_insert_eq in Hk. injection Hk as <-.
    reflexivity.
  - unfold st1 in Hk. rewrite lookup_insert_ne in Hk by congruence.
    specialize (Hothers k s0 Hne Hk Hact0).
    apply StronglySorted_inv in Hsorted as [_ Hall].
    apply elem_of_cons in Hin as [Heq|Hin].
    + symmetry. exact Heq.
    + rewrite Forall_forall in Hall. specialize (Hall _ Hin).
      simpl in Hall. lia.
Qed.

(** X5. What [createSession] has stored can be read back at once: [getSession]
    with the new id answers 200 with an active session that has no
    messages, [getActiveSessions] lists it, and every page of
    [getMessages] is empty. *)
Theorem created_session_can_be_read_back uuid now body (st st' : Store)
    code payload :
  createSession uuid now body st = (Success code payload, st') ->
  exists s,
    getSession uuid st' = (Success 200 (SessionData s), st')
    /\ sessionId s = uuid /\ status s = active /\ messages s = []
    /\ withoutMessages s ∈ data (getActiveSessions st').1
    /\ forall parseInt limit skip,
         pageOf (getMessages parseInt uuid limit skip st') = [].
Proof.
  unfold createSession. destruct body as [ui|]; [|discriminate].
  destruct (negb (truthy (raw_fullName ui)) || _ || _ || _);
    [discriminate|].
  intros [= _ _ <-].
  match goal with
  | |- context [save ?x st] => set (session := x)
  end.
  assert (findOne uuid (save session st) = Some session) as Hf.
  { apply findOne_Some. split; [apply lookup_insert_eq | reflexivity]. }
  exists session. split.
  { unfold getSession. rewrite Hf. reflexivity. }
  do 3 (split; [reflexivity|]). split.
  - apply getActiveSessions_elem. exists uuid, session.
    split; [apply lookup_insert_eq|]. split; reflexivity.
  - intros parseInt limit skip. unfold pageOf, getMessages. rewrite Hf.
    cbn [fst page_messages]. unfold slice. cbn [messages session newSession].
    rewrite drop_nil, take_nil. reflexivity.
Qed.

End QueryFacts.

(** ** The summary e-mail: when it goes out, and what stops it *)

Section SummaryDelivery.
Import Text SessionModel EmailService SessionController.
Context (R : Runtime).

(** The message [sendSummaryEmail] hands to the transport for a session. *)
Lemma summaryAttempt_found env now sid (st : Store) s :
  truthy (ADMIN_EMAIL env) = true ->
  findOne sid st = Some s ->
  truthy (MAIL_USER env) = true ->
  truthy (MAIL_PASS env) = true ->
  summaryAttempt R env now sid st
  = match
      sendMail env
        {| mail_from :=
             or_else (MAIL_FROM env)
               (dq +:+ "Yazaki Chatbot" +:+ dq +:+ " <"
                +:+ default "undefined" (MAIL_USER env) +:+ ">");
           mail_to := or_else (ADMIN_EMAIL env) "";
           mail_subject :=
             "Chat Summary - " +:+ fullName (userInfo s) +:+ " ("
             +:+ companyName (userInfo s) +:+ ") - Session "
             +:+ Text.prefix 8 sid;
           mail_text := buildPlainTextSummary R now s;
           mail_html := buildHtmlSummary R now s |}
    with
    | Return messageId =>
        Return
          (Delivered
             ("Email sent successfully to " +:+ or_else (ADMIN_EMAIL env) "")
             sid messageId now
             {| recipient := or_else (ADMIN_EMAIL env) "";
                det_messageCount := length (messages s);
                userEmail := email (userInfo s);
                userName := fullName (userInfo s) |})
    | Throw e => Throw e
    end.
Proof.
  intros Ha Hs Hu Hp.
  unfold summaryAttempt, fetchSessionData, sendEmail, createTransporter.
  rewrite Ha, Hs, Hu, Hp. cbn.
  match goal with |- context [sendMail env ?m] => destruct (sendMail env m) end;
    reflexivity.
Qed.

(** X6. [sendSummaryEmail] reports success exactly when [ADMIN_EMAIL],
    [MAIL_USER] and [MAIL_PASS] are set, the session exists (whatever its
    status) and the transport accepts the message. The message goes to
    [ADMIN_EMAIL], its subject ends with the first eight characters of the
    session id, its two bodies are the two summaries; the confirmation
    names the recipient and carries the number of messages of the
    session. *)
Theorem sendSummaryEmail_delivers_exactly_when env now sid (st : Store) :
  (success (sendSummaryEmail R env now sid st) = true
   <-> truthy (ADMIN_EMAIL env) = true
       /\ truthy (MAIL_USER env) = true /\ truthy (MAIL_PASS env) = true
       /\ exists s messageId,
            findOne sid st = Some s
            /\ sendMail env
                 {| mail_from :=
                      or_else (MAIL_FROM env)
                        (dq +:+ "Yazaki Chatbot" +:+ dq +:+ " <"
                         +:+ default "undefined" (MAIL_USER env) +:+ ">");
                    mail_to := or_else (ADMIN_EMAIL env) "";
                    mail_subject :=
                      "Chat Summary - " +:+ fullName (userInfo s) +:+ " ("
                      +:+ companyName (userInfo s) +:+ ") - Session "
                      +:+ Text.prefix 8 sid;
                    mail_text := buildPlainTextSummary R now s;
                    mail_html := buildHtmlSummary R now s |}
               = Return messageId)
  /\ (forall s message sid' messageId at_ details,
        findOne sid st = Some s ->
        sendSummaryEmail R env now sid st
        = Delivered message sid' messageId at_ details ->
        message
        = "Email sent successfully to " +:+ or_else (ADMIN_EMAIL env) ""
        /\ sid' = sid /\ at_ = now
        /\ details
           = {| recipient := or_else (ADMIN_EMAIL env) "";
                det_messageCount := length (messages s);
                userEmail := email (userInfo s);
                userName := fullName (userInfo s) |}).
Proof.
  assert (success (sendSummaryEmail R env now sid st) = true ->
          truthy (ADMIN_EMAIL env) = true /\ truthy (MAIL_USER env) = true
          /\ truthy (MAIL_PASS env) = true
          /\ exists s, findOne sid st = Some s) as Hfwd.
  { intros Hok.
    destruct (truthy (ADMIN_EMAIL env)) eqn:Ha; cycle 1.
    { unfold sendSummaryEmail, summaryAttempt in Hok. rewrite Ha in Hok.
      discriminate Hok. }
    destruct (findOne sid st) as [s|] eqn:Hs; cycle 1.
    { unfold sendSummaryEmail, summaryAttempt, fetchSessionData in Hok.
      rewrite Ha, Hs in Hok. discriminate Hok. }
    destruct (truthy (MAIL_USER env)) eqn:Hu; cycle 1.
    { unfold sendSummaryEmail, summaryAttempt, fetchSessionData, sendEmail,
        createTransporter in Hok.
      rewrite Ha, Hs, Hu in Hok. discriminate Hok. }
    destruct (truthy (MAIL_PASS env)) eqn:Hp; cycle 1.
    { unfold sendSummaryEmail, summaryAttempt, fetchSessionData, sendEmail,
        createTransporter in Hok.
      rewrite Ha, Hs, Hu, Hp in Hok. discriminate Hok. }
    eauto. }
  split; [split|].
  - intros Hok. destruct (Hfwd Hok) as (Ha & Hu & Hp & s & Hs).
    do 3 (split; [assumption|]).
    unfold sendSummaryEmail in Hok.
    rewrite (summaryAttempt_found env now sid st s Ha Hs Hu Hp) in Hok.
    match type of Hok with
    | context [sendMail env ?m] =>
        destruct (sendMail env m) as [id|e] eqn:Hsend
    end; [|discriminate Hok].
    exists s, id. auto.
  - intros (Ha & Hu & Hp & s & id & Hs & Hsend). unfold sendSummaryEmail.
    rewrite (summaryAttempt_found env now sid st s Ha Hs Hu Hp), Hsend.
    reflexivity.
  - intros s message sid' messageId at_ details Hs Hd.
    destruct Hfwd as (Ha & Hu & Hp & _); [rewrite Hd; reflexivity|].
    unfold sendSummaryEmail in Hd.
    rewrite (summaryAttempt_found env now sid st s Ha Hs Hu Hp) in Hd.
    match type of Hd with
    | context [sendMail env ?m] => destruct (sendMail env m) as [id|e]
    end; [|discriminate Hd].
    injection Hd as <- <- <- <- <-. auto.
Qed.

(** X7. The checks of [sendSummaryEmail] come in a fixed order, and none of
    them lets an exception out. Without [ADMIN_EMAIL] the answer names that
    variable, whatever the session id; with it, an id that no session has
    is reported as [Session not found], and [sendSessionSummary] answers
    500, not 404; only then are the credentials looked at. In these three
    cases the transport is not used: the result is the same whatever it
    would do. *)
Theorem sendSummaryEmail_failures_in_order env now sid (st : Store) :
  (truthy (ADMIN_EMAIL env) = false ->
   sendSummaryEmail R env now sid st
   = NotDelivered
       "Failed to send email: ADMIN_EMAIL not configured in .env file" sid
       "ADMIN_EMAIL not configured in .env file" now)
  /\ (truthy (ADMIN_EMAIL env) = true -> findOne sid st = None ->
      sendSummaryEmail R env now sid st
      = NotDelivered ("Failed to send email: Session not found: " +:+ sid)
          sid ("Session not found: " +:+ sid) now
      /\ sendSessionSummary R env now sid st
         = (FailureWith 500
              ("Failed to send email: Session not found: " +:+ sid)
              ("Session not found: " +:+ sid), st))
  /\ (truthy (ADMIN_EMAIL env) = true -> is_Some (findOne sid st) ->
      truthy (MAIL_USER env) = false \/ truthy (MAIL_PASS env) = false ->
      sendSummaryEmail R env now sid st
      = NotDelivered
          "Failed to send email: Email configuration is missing. Please check MAIL_USER and MAIL_PASS in .env file."
          sid
          "Email configuration is missing. Please check MAIL_USER and MAIL_PASS in .env file."
          now)
  /\ (truthy (ADMIN_EMAIL env) = false \/ findOne sid st = None
      \/ truthy (MAIL_USER env) = false \/ truthy (MAIL_PASS env) = false ->
      forall transport,
        sendSummaryEmail R
          {| MAIL_USER := MAIL_USER env; MAIL_PASS := MAIL_PASS env;
             MAIL_FROM := MAIL_FROM env; ADMIN_EMAIL := ADMIN_EMAIL env;
             sendMail := transport |} now sid st
        = sendSummaryEmail R env now sid st).
Proof.
  assert (forall e : Env, truthy (ADMIN_EMAIL e) = false ->
            sendSummaryEmail R e now sid st
            = NotDelivered
                "Failed to send email: ADMIN_EMAIL not configured in .env file"
                sid "ADMIN_EMAIL not configured in .env file" now) as A.
  { intros e Ha. unfold sendSummaryEmail, summaryAttempt. rewrite Ha.
    reflexivity. }
  assert (forall e : Env, truthy (ADMIN_EMAIL e) = true ->
            findOne sid st = None ->
            sendSummaryEmail R e now sid st
            = NotDelivered
                ("Failed to send email: Session not found: " +:+ sid)
                sid ("Session not found: " +:+ sid) now) as B.
  { intros e Ha Hs. unfold sendSummaryEmail, summaryAttempt, fetchSessionData.
    rewrite Ha, Hs. reflexivity. }
  assert (forall e : Env, truthy (ADMIN_EMAIL e) = true ->
            is_Some (findOne sid st) ->
            truthy (MAIL_USER e) = false \/ truthy (MAIL_PASS e) = false ->
            sendSummaryEmail R e now sid st
            = NotDelivered
                "Failed to send email: Email configuration is missing. Please check MAIL_USER and MAIL_PASS in .env file."
                sid
                "Email configuration is missing. Please check MAIL_USER and MAIL_PASS in .env file."
                now) as C.
  { intros e Ha [s Hs] Hc.
    unfold sendSummaryEmail, summaryAttempt, fetchSessionData, sendEmail,
      createTransporter.
    rewrite Ha, Hs.
    destruct Hc as [-> | ->];
      [|destruct (truthy (MAIL_USER e))]; reflexivity. }
  split; [apply A|]. split.
  { intros Ha Hs. split; [apply B; assumption|].
    unfold sendSessionSummary. rewrite (B env Ha Hs). reflexivity. }
  split; [apply C|].
  intros Hcase transport.
  destruct (truthy (ADMIN_EMAIL env)) eqn:Ha; cycle 1.
  { rewrite (A env Ha). apply A. exact Ha. }
  destruct (findOne sid st) as [s|] eqn:Hs; cycle 1.
  { rewrite (B env Ha eq_refl). apply B; [exact Ha | reflexivity]. }
  assert (truthy (MAIL_USER env) = false \/ truthy (MAIL_PASS env) = false)
    as Hc.
  { destruct Hcase as [H|[H|H]]; [discriminate H | discriminate H | exact H]. }
  rewrite (C env Ha (ex_intro _ s eq_refl) Hc).
  apply C; [exact Ha | exists s; reflexivity | exact Hc].
Qed.

End SummaryDelivery.

(** ** The texts the summaries compute *)

Section ComputedTexts.
Import Text SessionModel EmailService.
Context (R : Runtime).

Lemma append_cons c s t : String c s +:+ t = String c (s +:+ t).
Proof. reflexivity. Qed.

Lemma append_nil_l t : "" +:+ t = t.
Proof. reflexivity. Qed.

Lemma length_append_s a b :
  String.length (a +:+ b) = String.length a + String.length b.
Proof.
  induction a as [|c a IH]; [reflexivity|].
  rewrite append_cons. simpl. rewrite IH. reflexivity.
Qed.

Lemma escapeHtml_digits d :
  escapeHtml (NilEmpty.string_of_uint d) = NilEmpty.string_of_uint d.
Proof.
  induction d as [|d IH|d IH|d IH|d IH|d IH|d IH|d IH|d IH|d IH|d IH];
    [reflexivity|..]; simpl; rewrite IH; reflexivity.
Qed.

Lemma escapeHtml_showZ z : escapeHtml (showZ z) = showZ z.
Proof.
  unfold showZ. destruct (Z.to_int z) as [d|d]; simpl.
  - destruct d; try reflexivity; apply escapeHtml_digits.
  - f_equal. destruct d; try reflexivity; apply escapeHtml_digits.
Qed.

Lemma escapeHtml_padStart2 s :
  escapeHtml s = s -> escapeHtml (padStart2 s) = padStart2 s.
Proof.
  intros Hs. unfold padStart2. rewrite escapeHtml_app, Hs. f_equal.
  induction (2 - String.length s) as [|n IH]; [reflexivity|].
  simpl. rewrite append_cons, append_nil_l. simpl. rewrite IH. reflexivity.
Qed.

Lemma escapeHtml_plural n : escapeHtml (plural n) = plural n.
Proof. unfold plural. destruct (n =? 1)%Z; reflexivity. Qed.

(** X8. The texts the summaries compute themselves and put into the HTML
    document without escaping them (the times, the duration, the message
    count) hold none of the five characters [escapeHtml] replaces, whatever
    the clock and the runtime give: escaping would leave them as they
    are. *)
Theorem computed_fields_need_no_escaping (t start finish : Time) (n : Z) :
  escapeHtml (formatTimestamp R t) = formatTimestamp R t
  /\ escapeHtml (calculateDuration start finish)
     = calculateDuration start finish
  /\ escapeHtml (showZ n) = showZ n.
Proof.
  split; [|split; [|apply escapeHtml_showZ]].
  - unfold formatTimestamp.
    rewrite !escapeHtml_app, !escapeHtml_padStart2, escapeHtml_showZ
      by apply escapeHtml_showZ.
    reflexivity.
  - unfold calculateDuration. cbv zeta.
    repeat match goal with
           | |- context [if ?b then _ else _] => destruct b
           end;
      rewrite !escapeHtml_app, !escapeHtml_showZ, !escapeHtml_plural;
      reflexivity.
Qed.

Lemma padStart2_two_digits z :
  (0 <= z <= 99)%Z -> String.length (padStart2 (showZ z)) = 2.
Proof.
  intros Hz. destruct z as [|p|p]; [reflexivity| |lia].
  do 7 (try destruct p as [p|p|]); try lia; reflexivity.
Qed.

(** X9. With a clock whose month, day, hour and minute are in their calendar
    ranges, [formatTimestamp] writes each of them with exactly two digits
    after the year: the text is the year followed by twelve characters.
    [formatTime] of the chat window then has five characters. *)
Theorem timestamps_have_two_digit_fields (t : Time) :
  (0 <= getMonth R t <= 11)%Z -> (1 <= getDate R t <= 31)%Z ->
  (0 <= getHours R t <= 23)%Z -> (0 <= getMinutes R t <= 59)%Z ->
  (exists month day hours minutes,
     formatTimestamp R t
     = showZ (getFullYear R t) +:+ "-" +:+ month +:+ "-" +:+ day +:+ " "
       +:+ hours +:+ ":" +:+ minutes
     /\ String.length month = 2 /\ String.length day = 2
     /\ String.length hours = 2 /\ String.length minutes = 2)
  /\ String.length (formatTimestamp R t)
     = String.length (showZ (getFullYear R t)) + 12
  /\ String.length (ChatbotForm.formatTime R t) = 5.
Proof.
  intros Hmo Hd Hh Hmi.
  assert (String.length (padStart2 (showZ (getMonth R t + 1))) = 2) as A
    by (apply padStart2_two_digits; lia).
  assert (String.length (padStart2 (showZ (getDate R t))) = 2) as B
    by (apply padStart2_two_digits; lia).
  assert (String.length (padStart2 (showZ (getHours R t))) = 2) as C
    by (apply padStart2_two_digits; lia).
  assert (String.length (padStart2 (showZ (getMinutes R t))) = 2) as D
    by (apply padStart2_two_digits; lia).
  split; [|split].
  - eexists _, _, _, _. split; [reflexivity|]. auto.
  - unfold formatTimestamp. rewrite !length_append_s, A, B, C, D.
    simpl. lia.
  - unfold ChatbotForm.formatTime. rewrite !length_append_s, C, D.
    reflexivity.
Qed.

Lemma entity_cases c e :
  entity c = Some e ->
  (c = "&"%char /\ e = "&amp;") \/ (c = "<"%char /\ e = "&lt;")
  \/ (c = ">"%char /\ e = "&gt;") \/ (c = ascii_of_nat 34 /\ e = "&quot;")
  \/ (c = "'"%char /\ e = "&#039;").
Proof.
  intros H. unfold entity in H.
  assert (forall n, nat_of_ascii c = n -> c = ascii_of_nat n) as Hc
    by (intros n <-; symmetry; apply ascii_nat_embedding).
  repeat match type of H with
         | context [(nat_of_ascii c =? ?n)] =>
             destruct (Nat.eqb_spec (nat_of_ascii c) n) as [Heq|?]
         end;
    try discriminate H; apply Hc in Heq; injection H as <-; auto 10.
Qed.

Lemma entity_amp c : entity c = None -> c <> "&"%char.
Proof. intros H ->. discriminate H. Qed.

(** X10. [escapeHtml] loses nothing: two texts with the same escaped form are
    the same text. *)
Theorem escapeHtml_injective a : forall b,
  escapeHtml a = escapeHtml b -> a = b.
Proof.
  induction a as [|c1 a IH]; intros [|c2 b] H.
  - reflexivity.
  - simpl in H. destruct (entity c2) as [e|] eqn:E; [|discriminate H].
    apply entity_cases in E as [[_ ->]|[[_ ->]|[[_ ->]|[[_ ->]|[_ ->]]]]];
      discriminate H.
  - simpl in H. destruct (entity c1) as [e|] eqn:E; [|discriminate H].
    apply entity_cases in E as [[_ ->]|[[_ ->]|[[_ ->]|[[_ ->]|[_ ->]]]]];
      discriminate H.
  - simpl in H.
    destruct (entity c1) as [e1|] eqn:E1, (entity c2) as [e2|] eqn:E2.
    + apply entity_cases in E1
        as [[-> ->]|[[-> ->]|[[-> ->]|[[-> ->]|[-> ->]]]]];
      apply entity_cases in E2
        as [[-> ->]|[[-> ->]|[[-> ->]|[[-> ->]|[-> ->]]]]];
      rewrite ?append_cons, ?append_nil_l in H;
      try discriminate H;
      injection H as H; f_equal; apply IH; exact H.
    + apply entity_amp in E2.
      apply entity_cases in E1
        as [[-> ->]|[[-> ->]|[[-> ->]|[[-> ->]|[-> ->]]]]];
      rewrite ?append_cons in H; injection H as H1 H2;
      congruence.
    + apply entity_amp in E1.
      apply entity_cases in E2
        as [[-> ->]|[[-> ->]|[[-> ->]|[[-> ->]|[-> ->]]]]];
      rewrite ?append_cons in H; injection H as H1 H2;
      congruence.
    + injection H as -> H. f_equal. apply IH. exact H.
Qed.

End ComputedTexts.

(** ** The client: attempts, back-off and the session id *)

Section ClientFacts.
Import Text ChatbotAPI ChatbotSession.
Variable server : Server.
Variable sessions : nat -> list (string * string) -> FetchOutcome.




Lemma sendMessage_session message userInfo c :
  let r := sendMessage server message userInfo c in
  (tracked c -> tracked r.2)
  /\ forall reply, r.1 = Resolved reply ->
       reply_session_id reply = sessionId r.2.
Proof.
  unfold sendMessage, tracked.
  destruct (is_empty message || is_empty (trim message));
    [simpl; split; [auto|discriminate]|].
  cbn [fetches calls slept sessionId storage].
  destruct (server (fetches c) _) as [e|status body];
    [simpl; split; [auto|discriminate]|].
  destruct (negb (ok status)); [simpl; split; [auto|discriminate]|].
  destruct body as [data|]; [|simpl; split; [auto|discriminate]].
  destruct (body_session_id data) as [sid|]; cbn [truthy or_else andb].
  - destruct (is_empty sid) eqn:He; cbn [negb andb fst snd].
    + split; [auto|]. intros reply [= <-]. reflexivity.
    + destruct (String.eqb sid (sessionId c)) eqn:Heq; cbn [negb fst snd].
      * apply String.eqb_eq in Heq. split; [auto|].
        intros reply [= <-]. simpl. exact Heq.
      * split; [intros _; simpl; auto|].
        intros reply [= <-]. reflexivity.
  - cbn [fst snd]. split; [auto|]. intros reply [= <-]. reflexivity.
Qed.

Lemma retryLoop_session cfg message userInfo :
  forall remaining attempt lastError c,
    let r := retryLoop server cfg remaining attempt lastError message
               userInfo c in
    (tracked c -> tracked r.2)
    /\ forall reply, r.1 = Resolved reply ->
         reply_session_id reply = sessionId r.2.
Proof.
  induction remaining as [|k IH]; intros attempt lastError c.
  - simpl. split; [auto|discriminate].
  - cbn [retryLoop].
    destruct (sendMessage_session message userInfo c) as [Ht Hr].
    destruct (sendMessage server message userInfo c) as [[reply|e] c1].
    + cbn [fst snd] in *. split; [exact Ht|].
      intros reply' [= <-]. apply Hr. reflexivity.
    + cbn [fst snd] in Ht.
      match goal with
      | |- context [retryLoop server cfg k (S attempt) e message userInfo ?c2]
        => destruct (IH (S attempt) e c2) as [Ht2 Hr2];
           assert (tracked c1 -> tracked c2) as Hsleep
      end.
      { destruct (attempt <? maxAttempts cfg); auto. }
      split; [auto|exact Hr2].
Qed.

(** X12. A reply that [sendMessage] or [sendMessageWithRetry] hands to the page
    names the session the client object is in afterwards: the id the server
    returned if it returned one, which the client has then adopted, and the
    client's own id otherwise. *)
Theorem resolved_reply_names_the_client_session cfg message userInfo c :
  (forall reply c',
     sendMessage server message userInfo c = (Resolved reply, c') ->
     reply_session_id reply = sessionId c')
  /\ (forall reply c',
        sendMessageWithRetry server cfg message userInfo c
        = (Resolved reply, c') ->
        reply_session_id reply = sessionId c').
Proof.
  split; intros reply c' H.
  - destruct (sendMessage_session message userInfo c) as [_ Hr].
    rewrite H in Hr. apply Hr. reflexivity.
  - destruct (retryLoop_session cfg message userInfo (maxAttempts cfg) 1
                None c) as [_ Hr].
    unfold sendMessageWithRetry in H. rewrite H in Hr. apply Hr.
    reflexivity.
Qed.

Lemma newLocalId_not_empty stamp rand :
  is_empty (newLocalId stamp rand) = false.
Proof. reflexivity. Qed.

Lemma construct_tracked stamp rand stored :
  tracked (construct stamp rand stored).
Proof.
  unfold construct, getOrCreateSessionId, tracked.
  destruct stored as [[|ch s]|]; simpl; auto.
Qed.

Lemma closeSession_tracked sendEmail stamp rand c :
  tracked c ->
  tracked (closeSession server sendEmail (newLocalId stamp rand) c).2.
Proof.
  unfold closeSession, tracked. intros [Hs He]. rewrite He.
  destruct (server (fetches c) _) as [e|status body]; [simpl; auto|].
  destruct (negb (ok status)); [simpl; auto|].
  destruct body; simpl; auto.
Qed.

Lemma createSession_tracked userInfo c :
  tracked c -> tracked (createSession sessions userInfo c).2.
Proof.
  unfold createSession, tracked. intros Hc.
  destruct (sessions (fetches c) userInfo) as [e|status body]; [exact Hc|].
  destruct (negb (ok status)); [exact Hc|].
  destruct body as [data|]; [|exact Hc].
  destruct (body_session_id data) as [[|ch sid]|]; simpl; auto.
Qed.

Lemma call_tracked k c :
  tracked c -> tracked (call server sessions k c).
Proof.
  intros Hc. destruct k; cbn [call].
  - apply createSession_tracked, Hc.
  - apply sendMessage_session, Hc.
  - apply retryLoop_session, Hc.
  - split; reflexivity.
  - apply closeSession_tracked, Hc.
Qed.

(** X13. From its construction on and through every series of calls, whatever
    the stored value was and whatever the server answers, the client object
    has a session id that is not empty, and [localStorage] holds that same
    id. So [closeSession] never finds the client without a session: it
    always sends its request. *)
Theorem client_session_id_is_tracked stamp rand stored ks :
  let c := afterCalls server sessions ks (construct stamp rand stored) in
  storage c = Some (sessionId c)
  /\ is_empty (sessionId c) = false
  /\ forall sendEmail fresh,
       fetches (closeSession server sendEmail fresh c).2 = S (fetches c).
Proof.
  cbv zeta.
  assert (tracked
            (afterCalls server sessions ks (construct stamp rand stored)))
    as [Hs He].
  { unfold afterCalls.
    generalize (construct_tracked stamp rand stored).
    generalize (construct stamp rand stored).
    induction ks as [|k ks IH]; intros c Hc; [exact Hc|].
    simpl. apply IH, call_tracked, Hc. }
  split; [exact Hs|]. split; [exact He|].
  intros sendEmail fresh. unfold closeSession. rewrite He.
  destruct (server _ _) as [e|status body]; [reflexivity|].
  destruct (negb (ok status)); [reflexivity|].
  destruct body; reflexivity.
Qed.

(** X14. [getOrCreateSessionId] keeps an id that is stored and makes one up
    otherwise, also when the stored value is the empty text. Its result is
    never empty, it is what the storage holds afterwards, and a second call
    returns it again, whatever the clock and the random number are then. *)
Theorem getOrCreateSessionId_is_stable stamp rand stamp' rand' stored :
  let r := getOrCreateSessionId stamp rand stored in
  getOrCreateSessionId stamp' rand' r.2 = r
  /\ r.2 = Some r.1
  /\ is_empty r.1 = false
  /\ (forall id, stored = Some id -> is_empty id = false -> r.1 = id)
  /\ (truthy stored = false -> r.1 = newLocalId stamp rand).
Proof.
  unfold getOrCreateSessionId.
  destruct stored as [[|ch s]|]; simpl; repeat split; auto;
    try discriminate; intros id [= <-]; auto; discriminate.
Qed.

(** X15. [closeSession] gives the client a new local id only when the server
    has confirmed the close. When the request fails, by the network, by an
    error status or by an answer that is not JSON, the client keeps its
    session id and the stored one, so the close can be tried again. In
    both cases it sends one request, and none at all without a session
    id. *)
Theorem closeSession_resets_only_on_success sendEmail fresh c :
  let r := closeSession server sendEmail fresh c in
  match r.1 with
  | Resolved _ => sessionId r.2 = fresh /\ storage r.2 = Some fresh
  | Rejected _ => sessionId r.2 = sessionId c /\ storage r.2 = storage c
  end
  /\ calls r.2 = calls c /\ slept r.2 = slept c
  /\ fetches r.2
     = (if is_empty (sessionId c) then fetches c else S (fetches c)).
Proof.
  unfold closeSession.
  destruct (is_empty (sessionId c)); [simpl; auto|].
  destruct (server (fetches c) _) as [e|status body]; [simpl; auto|].
  destruct (negb (ok status)); [simpl; auto|].
  destruct body; simpl; auto.
Qed.

End ClientFacts.

(** ** The chat window: the e-mail pattern, the form, sending *)

Section TrimFacts.
Import Text.




End TrimFacts.

Section FormFacts.
Import Text ChatbotAPI ChatbotSession ChatbotForm.
Variable server : Server.
Variable sessions : nat -> list (string * string) -> FetchOutcome.








End FormFacts.

(** ** The reading loop of the streaming page *)

Section StreamFacts.
Import Text Streaming StreamConsumer.

Lemma onEvent_returnsAt message e (p : Page) :
  (onEvent message e p).2 = returnsAt e.
Proof.
  destruct e as [st sid|chunk acc done md|err|]; try reflexivity.
  simpl. destruct (is_empty err); reflexivity.
Qed.

Lemma consume_stops message pre e post : forall p : Page,
  Forall (fun x => returnsAt x = false) pre ->
  returnsAt e = true ->
  consume message (pre ++ e :: post) p = consume message (pre ++ [e]) p.
Proof.
  induction pre as [|x pre IH]; intros p Hpre He.
  - simpl. pose proof (onEvent_returnsAt message e p) as H.
    destruct (onEvent message e p) as [p' stop]. simpl in H.
    rewrite H, He. reflexivity.
  - apply Forall_cons in Hpre as [Hx Hpre]. simpl.
    destruct (onEvent message x p) as [p' stop].
    destruct stop; [reflexivity|]. apply IH; assumption.
Qed.

(** X19. The loop reads no further than the first event at which it returns
    (the end-of-stream line, an error with a message, an event with
    [done: true]): whatever follows that event on the wire changes
    nothing on the page. *)
Theorem stream_reading_stops_at_first_end message pre e post (p : Page) :
  Forall (fun x => returnsAt x = false) pre ->
  returnsAt e = true ->
  handleStreamingChat message (pre ++ e :: post) p
  = handleStreamingChat message (pre ++ [e]) p.
Proof.
  intros Hpre He. unfold handleStreamingChat.
  rewrite (consume_stops message pre e post _ Hpre He). reflexivity.
Qed.

Lemma consume_history message events : forall p : Page,
  (chatHistory (consume message events p)
   = chatHistory p
       ++ match lastRead events with
          | Some (EvData _ _ true _) =>
              [("user", message);
               ("assistant",
                accumulatedResponse (consume message events p))]
          | _ => []
          end)
  /\ errorsShown (consume message events p)
     = errorsShown p
         ++ match lastRead events with
            | Some (EvError err) => [err]
            | _ => []
            end.
Proof.
  induction events as [|e events IH]; intros p.
  - simpl. rewrite !app_nil_r. auto.
  - unfold lastRead. cbn [consume List.find].
    pose proof (onEvent_returnsAt message e p) as H.
    destruct (onEvent message e p) as [p' stop] eqn:E. simpl in H.
    subst stop. destruct (returnsAt e) eqn:R.
    + destruct e as [st sid|chunk acc done md|err|]; simpl in R;
        try discriminate R.
      * subst done. simpl in E. injection E as <-. simpl.
        rewrite app_nil_r. auto.
      * simpl in E. destruct (is_empty err); [discriminate R|].
        injection E as <-. simpl. rewrite app_nil_r. auto.
      * simpl in E. injection E as <-. simpl. rewrite !app_nil_r. auto.
    + destruct (IH p') as [A B]. fold (lastRead events).
      assert (chatHistory p' = chatHistory p
              /\ errorsShown p' = errorsShown p) as [Hh He].
      { destruct e as [st sid|chunk acc done md|err|]; simpl in R, E.
        - injection E as <-. auto.
        - subst done. injection E as <-. auto.
        - destruct (is_empty err); [|discriminate R].
          injection E as <-. auto.
        - discriminate R. }
      rewrite A, B, Hh, He. auto.
Qed.

(** X20. The page records an exchange in [chatHistory] only for a stream that
    reaches an event with [done: true] before anything else ends it: then
    the question and the accumulated answer are added, and nothing else.
    A stream that ends with an error, with the end-of-stream line alone,
    or just stops, leaves the history as it was; the error message, if
    there is one, is shown once. The typing indicator is off afterwards in
    every case. *)
Theorem stream_records_only_a_completed_exchange message events (p : Page) :
  let p' := handleStreamingChat message events p in
  chatHistory p'
  = chatHistory p
      ++ match lastRead events with
         | Some (EvData _ _ true _) =>
             [("user", message); ("assistant", accumulatedResponse p')]
         | _ => []
         end
  /\ errorsShown p'
     = errorsShown p
         ++ match lastRead events with
            | Some (EvError err) => [err]
            | _ => []
            end
  /\ typing p' = false.
Proof.
  unfold handleStreamingChat. cbv zeta.
  match goal with
  | |- context [consume message events ?q] =>
      destruct (consume_history message events q) as [A B]
  end.
  cbn [chatHistory errorsShown typing accumulatedResponse] in *.
  rewrite A, B. auto.
Qed.

Lemma onEvent_sessionId message e (p : Page) :
  (truthy (sessionId p) = true ->
   sessionId (onEvent message e p).1 = sessionId p)
  /\ (sessionId (onEvent message e p).1 = sessionId p
      \/ exists st sid,
           e = EvStatus st sid /\ is_empty sid = false
           /\ sessionId (onEvent message e p).1 = Some sid).
Proof.
  destruct e as [st sid|chunk acc done md|err|]; simpl;
    try (split; auto; fail).
  - destruct (is_empty sid) eqn:Es; simpl; [auto|].
    destruct (truthy (sessionId p)) eqn:Et; simpl; [auto|].
    split; [discriminate|]. right. eauto.
  - destruct (is_empty err); simpl; auto.
Qed.

Lemma consume_sessionId message events : forall p : Page,
  (truthy (sessionId p) = true ->
   sessionId (consume message events p) = sessionId p)
  /\ (sessionId (consume message events p) = sessionId p
      \/ exists st sid,
           In (EvStatus st sid) events /\ is_empty sid = false
           /\ sessionId (consume message events p) = Some sid).
Proof.
  induction events as [|e events IH]; intros p; [simpl; auto|].
  cbn [consume].
  destruct (onEvent_sessionId message e p) as [A B].
  destruct (onEvent message e p) as [p' stop]. cbn [fst] in A, B.
  destruct stop.
  - split; [exact A|]. destruct B as [B|(st & sid & -> & Hs & B)]; [auto|].
    right. exists st, sid. simpl. auto.
  - destruct (IH p') as [C D]. split.
    + intros Ht. rewrite C, A; auto. rewrite A; auto.
    + destruct D as [D|(st & sid & Hin & Hs & D)].
      * rewrite D. destruct B as [B|(st & sid & -> & Hs & B)]; [auto|].
        right. exists st, sid. simpl. auto.
      * right. exists st, sid. simpl. auto.
Qed.

(** X21. A page that has a session id keeps it through a stream, whatever ids
    the status events announce. A page without one ends with none or with an
    id that a status event of the stream carried. *)
Theorem stream_keeps_the_session_id message events (p : Page) :
  let p' := handleStreamingChat message events p in
  (truthy (sessionId p) = true -> sessionId p' = sessionId p)
  /\ (sessionId p' = sessionId p
      \/ exists st sid,
           In (EvStatus st sid) events /\ is_empty sid = false
           /\ sessionId p' = Some sid).
Proof.
  unfold handleStreamingChat. cbv zeta. cbn [sessionId].
  match goal with
  | |- context [consume message events ?q] =>
      destruct (consume_sessionId message events q) as [A B]
  end.
  cbn [sessionId] in A, B. auto.
Qed.

End StreamFacts.

(** ** The message routes in front of the controller *)

Section RouteFacts.
Import Text SessionModel SessionController MessageRoutes.
Context (V : Virtuals).
Variable isUUID : string -> bool.






End RouteFacts.

(** ** The migration of the location fields *)

Section MigrationFacts.
Import Text SessionModel Migration.

Lemma firstTruthy_truthy a b :
  truthy (firstTruthy a b) = truthy a || truthy b.
Proof. unfold firstTruthy. destruct (truthy a) eqn:E; [exact E|reflexivity]. Qed.

(** X24. Whatever [migrateDoc] saves is in the new layout: the document has a
    [location] object and no flat [city] or [country] with a value. The
    place it names is the one the script read from the old document (a
    flat value where there was one, the value under [location]
    otherwise), and a document that is not counted as updated is not
    changed. *)
Theorem migrateDoc_gives_new_layout doc doc' changed :
  migrateDoc doc = Return (doc', changed) ->
  doc_sessionId doc' = doc_sessionId doc
  /\ (exists ui' loc',
        doc_userInfo doc' = Some ui' /\ nested ui' = Some loc'
        /\ truthy (flat_city ui') = false
        /\ truthy (flat_country ui') = false
        /\ SessionModel.city loc' = cityOf (doc_userInfo doc)
        /\ SessionModel.country loc' = countryOf (doc_userInfo doc))
  /\ cityOf (doc_userInfo doc') = cityOf (doc_userInfo doc)
  /\ countryOf (doc_userInfo doc') = countryOf (doc_userInfo doc)
  /\ (changed = false -> doc' = doc).
Proof.
  unfold migrateDoc.
  destruct doc as [sid [[fc fco loc]|]]; [|discriminate].
  unfold cityOf, countryOf, firstTruthy.
  destruct fc as [[|c1 fc]|], fco as [[|c2 fco]|],
    loc as [[[[|c3 lc]|] [[|c4 lco]|]]|];
    cbn; intros [= <- <-]; cbn;
    repeat split; try discriminate; eauto 10.
Qed.

Lemma migrateDoc_fixed doc doc' changed :
  migrateDoc doc = Return (doc', changed) ->
  exists changed', migrateDoc doc' = Return (doc', changed').
Proof.
  unfold migrateDoc.
  destruct doc as [sid [[fc fco loc]|]]; [|discriminate].
  unfold cityOf, countryOf, firstTruthy.
  destruct fc as [[|c1 fc]|], fco as [[|c2 fco]|],
    loc as [[[[|c3 lc]|] [[|c4 lco]|]]|];
    cbn; intros [= <- <-]; cbn; eauto.
Qed.



Lemma migrateFrom_fixed docs : forall n docs' m,
  migrateFrom docs n = (docs', Return m) ->
  forall n', exists m', migrateFrom docs' n' = (docs', Return m').
Proof.
  induction docs as [|doc docs IH]; intros n docs' m H n'.
  - injection H as <- _. simpl. eauto.
  - cbn [migrateFrom] in H. destruct (selected doc) eqn:Hsel.
    + destruct (migrateDoc doc) as [[doc1 changed]|e] eqn:Hm;
        [|discriminate H].
      destruct (migrateFrom docs (if changed then S n else n))
        as [rest r] eqn:Hrest.
      injection H as <- ->.
      destruct (migrateDoc_fixed _ _ _ Hm) as [changed' Hm'].
      cbn [migrateFrom].
      destruct (IH _ _ _ Hrest (if changed' then S n' else n')) as [m1 H1].
      destruct (IH _ _ _ Hrest n') as [m2 H2].
      destruct (selected doc1).
      * rewrite Hm', H1. eauto.
      * rewrite H2. eauto.
    + destruct (migrateFrom docs n) as [rest r] eqn:Hrest.
      injection H as <- ->. cbn [migrateFrom]. rewrite Hsel.
      destruct (IH _ _ _ Hrest n') as [m2 H2]. rewrite H2. eauto.
Qed.

(** X25. The migration can be run again: after a run that went through, a
    second run leaves every document exactly as the first one left it. *)
Theorem migration_second_run_changes_nothing docs docs' updated :
  run docs = (docs', Return updated) ->
  exists updated', run docs' = (docs', Return updated').
Proof. intros H. exact (migrateFrom_fixed docs 0 docs' updated H 0). Qed.

Lemma migrateDoc_with_userInfo doc :
  is_Some (doc_userInfo doc) -> exists r, migrateDoc doc = Return r.
Proof.
  intros [ui Hui]. unfold migrateDoc. rewrite Hui.
  destruct (truthy _ || truthy _); [eauto|].
  destruct (nested ui); eauto.
Qed.

Lemma migrateFrom_length docs : forall n,
  length (migrateFrom docs n).1 = length docs.
Proof.
  induction docs as [|doc docs IH]; intros n; [reflexivity|].
  cbn [migrateFrom]. destruct (selected doc).
  - destruct (migrateDoc doc) as [[doc1 changed]|e]; [|reflexivity].
    specialize (IH (if changed then S n else n)).
    destruct (migrateFrom docs _) as [rest r]. simpl in *. lia.
  - specialize (IH n). destruct (migrateFrom docs n) as [rest r].
    simpl in *. lia.
Qed.

(** X26. A document without [userInfo] ends the run: the script reads
    [doc.userInfo.location] of it, which throws, and the documents that
    come after it in the cursor keep their old layout, whatever they
    hold. The documents before it have been dealt with. *)
Theorem migration_stops_at_document_without_userInfo pre doc post :
  Forall (fun d => is_Some (doc_userInfo d)) pre ->
  doc_userInfo doc = None ->
  exists pre',
    run (pre ++ doc :: post)
    = (pre' ++ doc :: post,
       Throw "Cannot read properties of undefined (reading 'location')")
    /\ length pre' = length pre
    /\ forall n, exists r, migrateFrom pre n = (pre', r).
Proof.
  intros Hpre Hdoc. unfold run. generalize 0 as n.
  induction pre as [|d pre IH]; intros n.
  - exists []. cbn [app migrateFrom]. unfold selected, migrateDoc, cityOf,
      countryOf. rewrite Hdoc. cbn. split; [reflexivity|].
    split; [reflexivity|]. intros n'. eauto.
  - apply Forall_cons in Hpre as [Hd Hpre]. specialize (IH Hpre).
    destruct (migrateDoc_with_userInfo d Hd) as [[d' changed] Hm].
    cbn [app migrateFrom]. destruct (selected d) eqn:Hsel.
    + rewrite Hm.
      destruct (IH (if changed then S n else n)) as (pre' & H1 & H2 & H3).
      rewrite H1. exists (d' :: pre'). split; [reflexivity|].
      split; [simpl; lia|]. intros n'. cbn [migrateFrom].
      rewrite ?Hsel, ?Hm.
      destruct (H3 (if changed then S n' else n')) as [r Hr]. rewrite Hr.
      eauto.
    + destruct (IH n) as (pre' & H1 & H2 & H3). rewrite H1.
      exists (d :: pre'). split; [reflexivity|]. split; [simpl; lia|].
      intros n'. cbn [migrateFrom]. rewrite ?Hsel.
      destruct (H3 n') as [r Hr]. rewrite Hr. eauto.
Qed.

End MigrationFacts.

(** ** Instances *)

Lemma getMessages_page_is_segment_witness :
  SessionQueries.getMessages Samples.parseDecimal "s-5" (Some "2")
    (Some "1") Samples.store5
  = (SessionQueries.Answered 200
       {| SessionQueries.page_sessionId := "s-5";
          SessionQueries.total := 5; SessionQueries.returned := 2;
          SessionQueries.page_messages :=
            [ Samples.said SessionModel.bot "PPAP is ..." 2001%Z;
              Samples.said SessionModel.user "And APQP?" 3000%Z ] |},
     Samples.store5).
Proof.
  exact (getMessages_page_is_segment Samples.parseDecimal "s-5" (Some "2")
           (Some "1") Samples.store5 Samples.session5 1 2
           ltac:(vm_compute; reflexivity) ltac:(vm_compute; reflexivity)
           ltac:(vm_compute; reflexivity)).
Defined.

Lemma getMessages_pages_cover_witness :
  SessionQueries.pageOf
    (SessionQueries.getMessages Samples.parseDecimal "s-5" (Some "2") None
       Samples.store5)
  ++ SessionQueries.pageOf
       (SessionQueries.getMessages Samples.parseDecimal "s-5" (Some "2")
          (Some "2") Samples.store5)
  ++ SessionQueries.pageOf
       (SessionQueries.getMessages Samples.parseDecimal "s-5" (Some "2")
          (Some "4") Samples.store5)
  ++ []
  = Samples.talk.
Proof.
  refine (getMessages_pages_cover Samples.parseDecimal "s-5" Samples.store5
            Samples.session5 2 3 (Some "2") Samples.skipOfPage
            ltac:(vm_compute; reflexivity) ltac:(vm_compute; reflexivity)
            _ ltac:(vm_compute; lia)).
  intros i Hi. destruct i as [|[|[|i]]]; [reflexivity..|lia].
Defined.

Lemma getMessages_unreadable_number_witness :
  SessionQueries.getMessages Samples.parseDecimal "s-5" (Some "ten") None
    Samples.store5
  = (SessionQueries.Answered 200
       {| SessionQueries.page_sessionId := "s-5";
          SessionQueries.total := 5; SessionQueries.returned := 0;
          SessionQueries.page_messages := [] |},
     Samples.store5).
Proof.
  exact (getMessages_unreadable_number Samples.parseDecimal "s-5"
           (Some "ten") None Samples.store5 Samples.session5
           ltac:(vm_compute; reflexivity)
           ltac:(right; vm_compute; reflexivity)).
Defined.

Lemma created_session_can_be_read_back_witness :
  exists s,
    SessionController.getSession "id-7"
      (SessionController.createSession "id-7" 5000%Z
         (Some Fixtures.janeRaw) Fixtures.store1).2
    = (SessionController.Success 200 (SessionController.SessionData s),
       (SessionController.createSession "id-7" 5000%Z
          (Some Fixtures.janeRaw) Fixtures.store1).2)
    /\ SessionModel.status s = SessionModel.active.
Proof.
  destruct (created_session_can_be_read_back "id-7" 5000%Z
              (Some Fixtures.janeRaw) Fixtures.store1
              (SessionController.createSession "id-7" 5000%Z
                 (Some Fixtures.janeRaw) Fixtures.store1).2
              201
              (SessionController.SessionCreated "id-7" Fixtures.jane
                 SessionModel.active 5000%Z)
              ltac:(vm_compute; reflexivity))
    as (s & H1 & _ & H2 & _).
  exists s. split; [exact H1 | exact H2].
Defined.

Lemma keep_alive_moves_session_to_front_witness :
  head
    (SessionQueries.data
       (SessionQueries.getActiveSessions
          (SessionController.updateActivity 7000%Z "s-1" Samples.store2).2).1)
  = Some
      (SessionQueries.withoutMessages
         (SessionModel.setLastActivity 7000%Z Fixtures.session1)).
Proof.
  apply keep_alive_moves_session_to_front.
  - vm_compute. reflexivity.
  - intros k s' Hk Hl _. unfold Samples.store2, Fixtures.store1 in Hl.
    apply lookup_insert_Some in Hl as [[<- <-]|[_ Hl]];
      [vm_compute; reflexivity|].
    apply lookup_singleton_Some in Hl as [<- _]. contradiction.
Defined.

Lemma timestamps_have_two_digit_fields_witness :
  String.length (EmailService.formatTimestamp Samples.runtime1 0%Z) = 4 + 12
  /\ String.length (ChatbotForm.formatTime Samples.runtime1 0%Z) = 5.
Proof.
  destruct (timestamps_have_two_digit_fields Samples.runtime1 0%Z
              ltac:(vm_compute; split; discriminate)
              ltac:(vm_compute; split; discriminate)
              ltac:(vm_compute; split; discriminate)
              ltac:(vm_compute; split; discriminate)) as (_ & H1 & H2).
  split; [exact H1 | exact H2].
Defined.

Lemma escapeHtml_injective_witness :
  EmailService.escapeHtml "a<b" = EmailService.escapeHtml "a<b"
  /\ "a<b" = "a<b".
Proof.
  split; [reflexivity|].
  exact (escapeHtml_injective "a<b" "a<b" eq_refl).
Defined.




Lemma stream_reading_stops_at_first_end_witness :
  Streaming.handleStreamingChat "What is PPAP?"
    ([ Streaming.EvStatus "generating" "s-1";
       Streaming.EvData "PPAP" "PPAP" false None ]
     ++ Streaming.EvData "" "PPAP is ..." true (Some [])
        :: [ Streaming.EvSentinel;
             Streaming.EvData "late" "late" false None ])
    Samples.page0
  = Streaming.handleStreamingChat "What is PPAP?"
      ([ Streaming.EvStatus "generating" "s-1";
         Streaming.EvData "PPAP" "PPAP" false None ]
       ++ [ Streaming.EvData "" "PPAP is ..." true (Some []) ])
      Samples.page0.
Proof.
  apply stream_reading_stops_at_first_end.
  - repeat constructor.
  - reflexivity.
Defined.


Lemma migrateDoc_gives_new_layout_witness :
  Migration.migrateDoc Samples.oldDoc = Text.Return (Samples.newDoc, true)
  /\ Migration.cityOf (Migration.doc_userInfo Samples.newDoc)
     = Migration.cityOf (Migration.doc_userInfo Samples.oldDoc).
Proof.
  split; [reflexivity|].
  destruct (migrateDoc_gives_new_layout Samples.oldDoc Samples.newDoc true
              eq_refl) as (_ & _ & H & _).
  exact H.
Defined.

Lemma migration_second_run_changes_nothing_witness :
  Migration.run [Samples.oldDoc; Samples.newDoc]
  = ([Samples.newDoc; Samples.newDoc], Text.Return 1)
  /\ exists updated,
       Migration.run [Samples.newDoc; Samples.newDoc]
       = ([Samples.newDoc; Samples.newDoc], Text.Return updated).
Proof.
  split; [reflexivity|].
  exact (migration_second_run_changes_nothing
           [Samples.oldDoc; Samples.newDoc]
           [Samples.newDoc; Samples.newDoc] 1 eq_refl).
Defined.

Lemma migration_stops_at_document_without_userInfo_witness :
  exists pre',
    Migration.run ([Samples.oldDoc] ++ Samples.bareDoc :: [Samples.oldDoc])
    = (pre' ++ Samples.bareDoc :: [Samples.oldDoc],
       Text.Throw "Cannot read properties of undefined (reading 'location')")
    /\ length pre' = 1.
Proof.
  destruct (migration_stops_at_document_without_userInfo [Samples.oldDoc]
              Samples.bareDoc [Samples.oldDoc]
              ltac:(repeat constructor; eexists; reflexivity) eq_refl)
    as (pre' & H1 & H2 & _).
  exists pre'. split; [exact H1 | exact H2].
Defined.

Lemma sendSummaryEmail_delivers_exactly_when_witness :
  EmailService.success
    (EmailService.sendSummaryEmail Samples.runtime1 Samples.smtpUp 9000%Z
       "s-5" Samples.store5)
  = true.
Proof.
  destruct (sendSummaryEmail_delivers_exactly_when Samples.runtime1
              Samples.smtpUp 9000%Z "s-5" Samples.store5) as [[_ H] _].
  apply H. do 3 (split; [reflexivity|]).
  exists Samples.session5, "<1@x.com>".
  split; [vm_compute; reflexivity | reflexivity].
Defined.


(** ** More sample evaluations *)

Example isValidEmail_samples :
  map ChatbotForm.isValidEmail
    ["jane@x.com"; "jane@x"; "jane doe@x.com"; "jane@@x.com"; "jane@x.com.";
     "jane@.com"; "@x.com"; "j@x..com"]
  = [true; false; false; false; true; false; false; true].
Proof. vm_compute. reflexivity. Qed.

Example slice_samples :
  SessionQueries.slice (Some 1%Z) (Some 3%Z) [10; 20; 30; 40; 50] = [20; 30]
  /\ SessionQueries.slice (Some (-2)%Z) (Some 5%Z) [10; 20; 30; 40; 50]
     = [40; 50]
  /\ SessionQueries.slice (Some 3%Z) (Some 100%Z) [10; 20; 30; 40; 50]
     = [40; 50]
  /\ SessionQueries.slice (Some 2%Z) None [10; 20; 30; 40; 50] = [].
Proof. repeat split. Qed.

Example getActiveSessions_sample :
  SessionQueries.count
    (SessionQueries.getActiveSessions
       (SessionController.endSession Fixtures.virtuals 8000%Z "s-5"
          Samples.store2).2).1
  = 1.
Proof. vm_compute. reflexivity. Qed.

Example getOrCreateSessionId_samples :
  ChatbotSession.getOrCreateSessionId "1700000000000" "k3j9x0q1z" None
  = ("session_1700000000000_k3j9x0q1z",
     Some "session_1700000000000_k3j9x0q1z")
  /\ ChatbotSession.getOrCreateSessionId "1700000000000" "k3j9x0q1z"
       (Some "s-1")
     = ("s-1", Some "s-1").
Proof. split; reflexivity. Qed.

Example handleSend_sample :
  ChatbotForm.bubbles
    (ChatbotForm.handleSend Samples.flaky ChatbotAPI.API_CONFIG_retry
       " What is PPAP? " Samples.widget0)
  = [ (ChatbotForm.UserBubble, "What is PPAP?");
      (ChatbotForm.BotBubble, "PPAP is ...") ].
Proof. vm_compute. reflexivity. Qed.

Example formatTime_sample :
  ChatbotForm.formatTime Samples.runtime1 0%Z = "09:15".
Proof. vm_compute. reflexivity. Qed.
